(** * Injury-Predictive-Model: feature extraction and heuristic labelling

    A shallow embedding of the batch scripts under [scripts/]:
    - [rolling_window_features.py]  (module [RollingWindowFeatures])
    - [auto_detect_injuries.py]     (module [AutoDetectInjuries])
    - [detect_injuries.py]          (module [DetectInjuries])
    - [process_injury_dates.py]     (module [ProcessInjuryDates])
    - [create_labeled_dataset.py]   (module [CreateLabeledDataset])
    - [train_model.py]              (module [TrainModel])

    Numbers.  The scripts compute on Python floats.  Sensor readings,
    timestamps and durations are embedded as exact rationals [Q]; a
    statistic that pandas reports as NaN is [None].  Rounding of binary
    floating point is therefore outside the model: equalities between
    rationals below are [Qeq], and they describe the arithmetic the code
    writes down, not the last bit of its binary64 result.  Where that last
    bit decides a statement, as for the mean of a constant column,
    [Pandas.mean_float64] computes in binary64 itself.

    Tables.  A [DataFrame] with the default [RangeIndex] is a [list] of row
    records, its index the list position; a Python [set] is a [gset], a
    [dict] a [gmap], or an association list where the order of its keys is
    observed. *)

From Stdlib Require Import ZArith QArith Qabs Qround List String Ascii.
From Stdlib Require Import DecimalString Sorting.Sorted Permutation Lia Lqa.
From Stdlib Require Import PrimFloat Uint63.
From stdpp Require Import gmap strings list.

Local Open Scope string_scope.

(** ** Python and pandas primitives used by the scripts *)

Module Py.

(** The two outcomes of code that may raise. *)
Inductive result (A : Type) : Type :=
| Ok (x : A)
| Raise.
Arguments Ok {A} x.
Arguments Raise {A}.

(** [sub in s] on [str]. *)
Fixpoint str_in (sub s : string) : bool :=
  String.prefix sub s ||
  match s with
  | EmptyString => false
  | String _ s' => str_in sub s'
  end.

(** ASCII white space, as removed by [str.strip()].  White space outside
    ASCII (U+0085, U+00A0 and the like), which [str.strip()] removes too, is
    kept. *)
Definition is_space (c : ascii) : bool :=
  let n := nat_of_ascii c in
  ((9 <=? n)%nat && (n <=? 13)%nat) || ((28 <=? n)%nat && (n <=? 32)%nat).

Fixpoint lstrip (s : string) : string :=
  match s with
  | String c s' => if is_space c then lstrip s' else s
  | EmptyString => EmptyString
  end.

Fixpoint rstrip (s : string) : string :=
  match s with
  | EmptyString => EmptyString
  | String c s' =>
      match rstrip s' with
      | EmptyString => if is_space c then EmptyString else String c EmptyString
      | r => String c r
      end
  end.

Definition strip (s : string) : string := rstrip (lstrip s).

(** [s.split(sep)] for a one-character separator. *)
Fixpoint split (sep : ascii) (s : string) : list string :=
  match s with
  | EmptyString => [EmptyString]
  | String c s' =>
      if Ascii.eqb c sep then EmptyString :: split sep s'
      else match split sep s' with
           | w :: ws => String c w :: ws
           | [] => [String c EmptyString]
           end
  end.

(** [s.replace(old, '')] for a non-empty [old]: occurrences are removed
    left to right, without overlap. *)
Fixpoint remove_from (fuel : nat) (old s : string) : string :=
  match fuel with
  | O => s
  | S fuel' =>
      if String.prefix old s
      then remove_from fuel' old
             (String.substring (String.length old)
                (String.length s - String.length old) s)
      else match s with
           | EmptyString => EmptyString
           | String c s' => String c (remove_from fuel' old s')
           end
  end.

Definition remove_all (old s : string) : string :=
  match old with
  | EmptyString => s
  | _ => remove_from (S (String.length s)) old s
  end.

(** [str(n)] for a non-negative [int]. *)
Definition str_of_nat (n : nat) : string :=
  NilZero.string_of_uint (Nat.to_uint n).

(** [range(start, -1, -1)]. *)
Definition range_down (start : Z) : list Z :=
  map (fun k => (start - Z.of_nat k)%Z) (seq 0 (Z.to_nat (start + 1))).

(** [x <= y] on two-element tuples of [str]: the first components decide
    unless they are equal; strings compare by code point. *)
Definition tuple_le (x y : string * string) : Prop :=
  String.ltb (fst x) (fst y) = true
  \/ (fst x = fst y /\ String.leb (snd x) (snd y) = true).

(** Comparison of two rationals, strict. *)
Definition Qlt_bool (x y : Q) : bool := negb (Qle_bool y x).

(** [f'{x:.1f}']: one digit after the point, ties to even, sign kept. *)
Definition round_half_even (x : Q) : Z :=
  let f := Qfloor x in
  let r := (x - inject_Z f)%Q in
  if Qlt_bool r (1 # 2) then f
  else if Qlt_bool (1 # 2) r then (f + 1)%Z
  else if Z.even f then f else (f + 1)%Z.

Definition format_1f (x : Q) : string :=
  let m := round_half_even (Qabs x * 10) in
  (if Qlt_bool x 0 then "-" else "")
    ++ str_of_nat (Z.to_nat (m / 10)) ++ "." ++ str_of_nat (Z.to_nat (m mod 10)).

(** [sorted(xs)] on a list of [str]: stable, by code point. *)
Fixpoint insert_str (x : string) (l : list string) : list string :=
  match l with
  | [] => [x]
  | y :: l' => if String.ltb y x then y :: insert_str x l' else x :: l
  end.

Definition sorted (l : list string) : list string := fold_right insert_str [] l.

(** The double-quote character, and a line feed. *)
Definition dquote : string := String "034"%char EmptyString.
Definition newline : string := String "010"%char EmptyString.

End Py.

Module Pandas.

Definition sum (l : list Q) : Q := fold_right Qplus 0%Q l.

Definition count (l : list Q) : Q := inject_Z (Z.of_nat (length l)).

(** [Series.mean()]: NaN on an empty column.  The quotient is the exact
    one; [mean_float64] below is the rounded one the machine returns. *)
Definition mean (l : list Q) : option Q :=
  match l with
  | [] => None
  | _ => Some (sum l / count l)%Q
  end.

Definition Qmax2 (x y : Q) : Q := if Qle_bool x y then y else x.

(** [Series.max()]: NaN on an empty column. *)
Definition max (l : list Q) : option Q :=
  match l with
  | [] => None
  | x :: xs => Some (fold_left Qmax2 xs x)
  end.

(** The square root of a non-negative rational, kept symbolic. *)
Record root := Sqrt { radicand : Q }.

Definition sq (x : Q) : Q := (x * x)%Q.

(** [Series.std()], [ddof=1]: NaN unless there are at least two values;
    otherwise the root of the sum of squared deviations over [n - 1]. *)
Definition std (l : list Q) : option root :=
  match mean l with
  | None => None
  | Some m =>
      if (length l <=? 1)%nat then None
      else Some (Sqrt (sum (map (fun x => sq (x - m)) l) / (count l - 1))%Q)
  end.

Fixpoint insert_sorted (x : Q) (l : list Q) : list Q :=
  match l with
  | [] => [x]
  | y :: l' => if Qle_bool x y then x :: l else y :: insert_sorted x l'
  end.

Definition sort (l : list Q) : list Q := fold_right insert_sorted [] l.

(** [Series.quantile(q)], linear interpolation between the two order
    statistics around position [(n - 1) * q]; NaN on an empty column. *)
Definition quantile (q : Q) (l : list Q) : option Q :=
  match l with
  | [] => None
  | _ =>
      let s := sort l in
      let h := ((count l - 1) * q)%Q in
      let lo := Z.to_nat (Qfloor h) in
      let hi := Nat.min (S lo) (length l - 1) in
      let x_lo := nth lo s 0%Q in
      let x_hi := nth hi s 0%Q in
      Some (x_lo + (x_hi - x_lo) * (h - inject_Z (Qfloor h)))%Q
  end.

(** [df.iloc[start:stop]] for non-negative bounds. *)
Definition iloc {A} (start stop : nat) (l : list A) : list A :=
  firstn (stop - start) (skipn start l).

(** [Series.tail(n)]. *)
Definition tail {A} (n : nat) (l : list A) : list A :=
  skipn (length l - n) l.

(** [Series.unique()] on a column of strings: first occurrences, in order. *)
Fixpoint unique (l : list string) : list string :=
  match l with
  | [] => []
  | x :: l' => x :: List.filter (fun y => negb (String.eqb y x)) (unique l')
  end.


End Pandas.

(** ** [rolling_window_features.py] *)

Module RollingWindowFeatures.

(** One entry of the payload's [data] array. *)
Record sample := Sample { ts : Q; v : Q; a : Q; pl : Q; mp : Q; sl : Q }.

(** The session object of a payload; absent keys are [None]. *)
Record payload := Payload {
  athlete_id : option string;
  athlete_first_name : option string;
  athlete_last_name : option string;
  data : list sample }.

(** What [json.load] returns: an object or an array of objects. *)
Inductive json :=
| JObject (o : payload)
| JArray (l : list payload).

Record session_file := SessionFile { name : string; content : json }.

(** A row of the frame built in [create_rolling_features]: the sample with
    its two derived columns. *)
Record frame_row := FrameRow {
  smp : sample;
  seconds_from_start : Q;
  minutes_from_start : Q }.

(** The dictionary built by [calculate_window_features]. *)
Record features := Features {
  window_minutes : Q;
  data_points : nat;
  avg_velocity : option Q;
  max_velocity : option Q;
  std_velocity : option Pandas.root;
  p90_velocity : option Q;
  avg_acceleration : option Q;
  max_acceleration : option Q;
  std_acceleration : option Pandas.root;
  p90_acceleration : option Q;
  cumulative_player_load : Q;
  avg_player_load_rate : Q;
  avg_metabolic_power : option Q;
  max_metabolic_power : option Q;
  p90_metabolic_power : option Q;
  recent_avg_velocity : option Q;
  recent_max_acceleration : option Q;
  avg_smooth_load : option Q }.

(** The dictionary after [features.update({...})]. *)
Record rolling_row := RollingRow {
  feats : features;
  date : string;
  row_athlete_id : string;
  athlete_name : string;
  activity_id : string;
  session_duration : option Q }.

Definition get_default (o : option string) (d : string) : string :=
  match o with Some s => s | None => d end.

Definition load_session_data (j : json)
  : Py.result (option (list sample * string * string)) :=
  let loaded :=
    match j with
    | JArray (o :: _) => Py.Ok o
    | JArray [] => Py.Raise        (* a list has no [get] *)
    | JObject o => Py.Ok o
    end in
  match loaded with
  | Py.Raise => Py.Raise
  | Py.Ok o =>
      let athlete_id := get_default (athlete_id o) "" in
      let athlete_name :=
        Py.strip (get_default (athlete_first_name o) "" ++ " "
                    ++ get_default (athlete_last_name o) "") in
      let data_points := data o in
      if (length data_points =? 0)%nat then Py.Ok None
      else Py.Ok (Some (data_points, athlete_id, athlete_name))
  end.

Definition col (f : sample -> Q) (df : list frame_row) : list Q :=
  map (fun r => f (smp r)) df.

Definition calculate_window_features
    (df : list frame_row) (start_idx end_idx : nat) (window_minutes : Q)
  : option features :=
  let window_df := Pandas.iloc start_idx end_idx df in
  match window_df with
  | [] => None
  | first :: _ =>
      let final := List.last window_df first in
      Some {|
        window_minutes := window_minutes;
        data_points := length window_df;
        avg_velocity := Pandas.mean (col v window_df);
        max_velocity := Pandas.max (col v window_df);
        std_velocity := Pandas.std (col v window_df);
        p90_velocity := Pandas.quantile (9 # 10) (col v window_df);
        avg_acceleration := Pandas.mean (col a window_df);
        max_acceleration := Pandas.max (col a window_df);
        std_acceleration := Pandas.std (col a window_df);
        p90_acceleration := Pandas.quantile (9 # 10) (col a window_df);
        cumulative_player_load :=
          if (0 <? length window_df)%nat then pl (smp final) else 0%Q;
        avg_player_load_rate :=
          if Py.Qlt_bool 0 window_minutes
          then ((pl (smp final) - pl (smp first)) / window_minutes)%Q
          else 0%Q;
        avg_metabolic_power := Pandas.mean (col mp window_df);
        max_metabolic_power := Pandas.max (col mp window_df);
        p90_metabolic_power := Pandas.quantile (9 # 10) (col mp window_df);
        recent_avg_velocity :=
          Pandas.mean (Pandas.tail 1200 (col v window_df));
        recent_max_acceleration :=
          Pandas.max (Pandas.tail 1200 (col a window_df));
        avg_smooth_load := Pandas.mean (col sl window_df)
      |}
  end.

(** [window_min > total_duration]; false against NaN. *)
Definition exceeds (window_min : Q) (total_duration : option Q) : bool :=
  match total_duration with
  | Some t => Py.Qlt_bool t window_min
  | None => false
  end.

(** [(df['minutes_from_start'] <= window_min).sum()]. *)
Definition mask_sum (df : list frame_row) (window_min : Q) : nat :=
  length (List.filter (fun r => Qle_bool (minutes_from_start r) window_min) df).

Definition add_elapsed (start_ts : Q) (s : sample) : frame_row :=
  let secs := (ts s - start_ts)%Q in
  {| smp := s; seconds_from_start := secs;
     minutes_from_start := (secs / 60)%Q |}.

Section loop.
Variables (df : list frame_row) (total_duration : option Q).
Variables (date_ athlete_id_ athlete_name_ activity_id_ : string).

(** The [for window_min in window_intervals] loop, with its [break] and
    [continue]; the rows it appends, in order. *)
Fixpoint window_loop (window_intervals : list Q) : list rolling_row :=
  match window_intervals with
  | [] => []
  | window_min :: rest =>
      if exceeds window_min total_duration then []
      else
        let end_idx := mask_sum df window_min in
        if (end_idx <? 100)%nat then window_loop rest
        else
          match calculate_window_features df 0 end_idx window_min with
          | Some features =>
              {| feats := features; date := date_;
                 row_athlete_id := athlete_id_;
                 athlete_name := athlete_name_;
                 activity_id := activity_id_;
                 session_duration := total_duration |}
                :: window_loop rest
          | None => window_loop rest
          end
  end.
End loop.

Definition frame (data_points : list sample) : list frame_row :=
  match data_points with
  | [] => []
  | s0 :: _ => map (add_elapsed (ts s0)) data_points
  end.

Definition total_duration (df : list frame_row) : option Q :=
  Pandas.max (map minutes_from_start df).


Definition create_rolling_features
    (json_file : session_file) (window_intervals : list Q)
  : Py.result (option (list rolling_row)) :=
  match load_session_data (content json_file) with
  | Py.Raise => Py.Raise
  | Py.Ok None => Py.Ok None
  | Py.Ok (Some (data_points, athlete_id, athlete_name)) =>
      let df := frame data_points in
      let total := total_duration df in
      match Py.split "_" (Py.remove_all ".json" (name json_file)) with
      | [date; _; activity_id] =>
          Py.Ok (Some (window_loop df total date athlete_id athlete_name
                         activity_id window_intervals))
      | _ => Py.Raise             (* unpacking fails *)
      end
  end.

(** The rows a file adds to the dataset: those [create_rolling_features]
    returns for it, none when it returns [None] or raises. *)
Definition rows_of (window_intervals : list Q) (json_file : session_file)
  : list rolling_row :=
  match create_rolling_features json_file window_intervals with
  | Py.Ok (Some rows) => rows
  | _ => []
  end.

(** The state of the loop of [process_all_sessions]. *)
Record tally := Tally {
  all_features : list rolling_row;
  processed : nat;
  skipped : nat }.

(** One iteration of [for i, json_file in enumerate(json_files, 1)]: a file
    counts as processed when its list of rows is non-empty, as skipped when
    it is [None] or empty or when reading it raises. *)
Definition process_step (window_intervals : list Q) (st : tally)
    (json_file : session_file) : tally :=
  match create_rolling_features json_file window_intervals with
  | Py.Ok (Some (r :: rs)) =>
      {| all_features := (all_features st ++ r :: rs)%list;
         processed := S (processed st);
         skipped := skipped st |}
  | Py.Ok (Some []) | Py.Ok None | Py.Raise =>
      {| all_features := all_features st;
         processed := processed st;
         skipped := S (skipped st) |}
  end.

(** [process_all_sessions] on the session files found under the data
    directory: the rows of the frame it saves, and its two counters. *)
Definition process_all_sessions (json_files : list session_file)
    (window_intervals : list Q) : tally :=
  fold_left (process_step window_intervals) json_files
    {| all_features := []; processed := 0; skipped := 0 |}.

End RollingWindowFeatures.

(** ** [auto_detect_injuries.py] *)

Module AutoDetectInjuries.

(** A row of [lightweight_features.csv], with the columns the script reads. *)
Record session := Session {
  date : string;
  athlete_name : string;
  athlete_id : string;
  data_points : Z;
  duration_minutes : Q }.

(** An entry of the list returned by [detect_injuries_on_date]. *)
Record detected := Detected {
  det_athlete_name : string;
  det_athlete_id : string;
  reason : string;
  det_data_points : Z;
  det_duration_minutes : Q }.

Definition format_opt (x : option Q) : string :=
  match x with Some q => Py.format_1f q | None => "nan" end.

(** [duration < avg_duration * 0.5 and avg_duration > 10]; comparisons
    against NaN are false. *)
Definition early_exit (duration : Q) (avg_duration : option Q) : bool :=
  match avg_duration with
  | Some avg => Py.Qlt_bool duration (avg * (1 # 2)) && Py.Qlt_bool 10 avg
  | None => false
  end.

(** The body of the [for _, session in date_sessions.iterrows()] loop:
    what it appends to [injured_athletes]. *)
Definition judge (avg_duration : option Q) (s : session) : list detected :=
  let athlete_name := athlete_name s in
  let data_points := data_points s in
  let duration := duration_minutes s in
  if (data_points =? 0)%Z then
    [ {| det_athlete_name := athlete_name; det_athlete_id := athlete_id s;
         reason := "NO DATA";
         det_data_points := 0; det_duration_minutes := 0 |} ]
  else if (data_points <? 1000)%Z then
    [ {| det_athlete_name := athlete_name; det_athlete_id := athlete_id s;
         reason := "MINIMAL DATA";
         det_data_points := data_points; det_duration_minutes := duration |} ]
  else if early_exit duration avg_duration then
    [ {| det_athlete_name := athlete_name; det_athlete_id := athlete_id s;
         reason := "EARLY EXIT (" ++ Py.format_1f duration ++ " min vs avg "
                     ++ format_opt avg_duration ++ " min)";
         det_data_points := data_points; det_duration_minutes := duration |} ]
  else [].

(** [df[df['date'] == target_date]]. *)
Definition on_date (df : list session) (target_date : string) : list session :=
  List.filter (fun s => String.eqb (date s) target_date) df.

Definition detect_injuries_on_date
    (df : list session) (target_date : string) : list detected :=
  let date_sessions := on_date df target_date in
  if (length date_sessions =? 0)%nat then []
  else
    let avg_duration := Pandas.mean (map duration_minutes date_sessions) in
    flat_map (judge avg_duration) date_sessions.

(** A row of [injury_dates.csv]; an empty [notes] cell is [None]. *)
Record injury_row := InjuryRow {
  injury_date : string;
  inj_athlete_name : string;
  notes : option string;
  other_columns : list (string * string) }.

(** [df.at[idx, 'athlete_name'] = name; df.at[idx, 'notes'] = note]. *)
Definition assign (name note : string) (r : injury_row) : injury_row :=
  {| injury_date := injury_date r; inj_athlete_name := name;
     notes := Some note; other_columns := other_columns r |}.

Definition set_at (idx : nat) (d : detected) (note : string)
    (st : list injury_row * nat) : list injury_row * nat :=
  (alter (assign (det_athlete_name d) note) idx (fst st), S (snd st)).

(** One iteration of [for idx, row in df_injuries.iterrows()], on the
    frame being updated and [updated_count]. *)
Definition update_step (detected_injuries : gmap string (list detected))
    (st : list injury_row * nat) (it : nat * injury_row)
  : list injury_row * nat :=
  let idx := fst it in
  let row := snd it in
  let injury_date := injury_date row in
  let current_name := inj_athlete_name row in
  if negb (Py.str_in "Unknown" current_name) then st
  else
    let date_injuries := default [] (detected_injuries !! injury_date) in
    match date_injuries with
    | [] => st
    | first :: _ =>
        if (length date_injuries =? 1)%nat then
          set_at idx first (reason first) st
        else if (1 <? length date_injuries)%nat then
          if Py.str_in "A" current_name && (0 <? length date_injuries)%nat then
            set_at idx first (reason first) st
          else if Py.str_in "B" current_name && (1 <? length date_injuries)%nat then
            let second := nth 1 date_injuries first in
            set_at idx second (reason second) st
          else if Py.str_in "Unknown" current_name
                  && negb (Py.str_in "A" current_name || Py.str_in "B" current_name) then
            set_at idx first
              (reason first ++ " (WARNING: "
                 ++ Py.str_of_nat (length date_injuries)
                 ++ " injuries detected on this date)") st
          else st
        else st
    end.

(** The frame's rows with their index labels, as [iterrows] yields them. *)
Definition iterrows {A} (df : list A) : list (nat * A) :=
  combine (seq 0 (length df)) df.

Definition update_loop (detected_injuries : gmap string (list detected))
    (df_injuries : list injury_row) : list injury_row * nat :=
  fold_left (update_step detected_injuries) (iterrows df_injuries)
    (df_injuries, 0%nat).

(** The frame that is saved and returned. *)
Definition update_injury_dates_csv
    (df_injuries : list injury_row)
    (detected_injuries : gmap string (list detected)) : list injury_row :=
  fst (update_loop detected_injuries df_injuries).

(** Lines 181-192 of [main]: the dictionary of the dates with at least one
    detection. *)
Definition all_detected (df : list session) (injury_dates : list string)
  : gmap string (list detected) :=
  fold_left
    (fun all injury_date =>
       match detect_injuries_on_date df injury_date with
       | [] => all
       | detected => <[ injury_date := detected ]> all
       end)
    (Py.sorted injury_dates) ∅.

(** [main] on the two frames it loads: the frame written back to
    [injury_dates.csv], or [None] when nothing was detected and the file is
    left alone. *)
Definition main (df : list session) (df_injuries : list injury_row)
  : option (list injury_row) :=
  let injury_dates := Pandas.unique (map injury_date df_injuries) in
  let all_detected := all_detected df injury_dates in
  if decide (all_detected = ∅) then None
  else Some (update_injury_dates_csv df_injuries all_detected).

End AutoDetectInjuries.

(** ** [detect_injuries.py] *)

Module DetectInjuries.

(** An entry of the payload's [data] array; only [ts] is read. *)
Record point := Point { ts : option Q }.

Record payload := Payload {
  athlete_first_name : option string;
  athlete_last_name : option string;
  data : list point }.

Inductive json :=
| JObject (o : payload)
| JArray (l : list payload).

(** A file of the data directory; [content] is [None] when opening or
    parsing it raises. *)
Record file := File {
  file_path : string;
  name : string;
  st_size : nat;
  content : option json }.

Record session_info := SessionInfo {
  date : string;
  athlete_id : string;
  athlete_name : string;
  activity_id : string;
  file_size : nat;
  data_points : nat;
  duration_minutes : Q;
  info_file_path : string }.

(** An entry of [injured_candidates]: the session's fields, the reason,
    and [avg_duration] where the early-exit pass adds it. *)
Record candidate := Candidate {
  info : session_info;
  reason : string;
  avg_duration : option Q }.

Definition get_default {A} (o : option A) (d : A) : A :=
  match o with Some x => x | None => d end.

(** Lines 36-83: the session read from one file, or [None] where the loop
    moves on to the next file. *)
Definition read_session (f : file) : option session_info :=
  match Py.split "_" (Py.remove_all ".json" (name f)) with
  | [date; athlete_id; activity_id] =>
      match content f with
      | None => None
      | Some j =>
          let data :=
            match j with
            | JArray (o :: _) => o
            | JArray [] => {| athlete_first_name := None;
                              athlete_last_name := None; data := [] |}
            | JObject o => o
            end in
          let athlete_name :=
            Py.strip (get_default (athlete_first_name data) "Unknown" ++ " "
                        ++ get_default (athlete_last_name data) "") in
          let data_points := DetectInjuries.data data in
          let num_points := length data_points in
          let duration_minutes :=
            match data_points with
            | p0 :: _ =>
                let start_ts := get_default (ts p0) 0%Q in
                let end_ts := get_default (ts (List.last data_points p0)) 0%Q in
                ((end_ts - start_ts) / 60)%Q
            | [] => 0%Q
            end in
          Some {| date := date; athlete_id := athlete_id;
                  athlete_name := athlete_name; activity_id := activity_id;
                  file_size := st_size f; data_points := num_points;
                  duration_minutes := duration_minutes;
                  info_file_path := file_path f |}
      end
  | _ => None
  end.

(** Lines 88-98: the per-file flag. *)
Definition flag (s : session_info) : list candidate :=
  if (file_size s <? 1000)%nat then
    [ {| info := s; reason := "NO DATA (file < 1KB)"; avg_duration := None |} ]
  else if (data_points s <? 100)%nat then
    [ {| info := s;
         reason := "MINIMAL DATA (" ++ Py.str_of_nat (data_points s) ++ " points)";
         avg_duration := None |} ]
  else [].

(** [d[k].append(x)] on a [defaultdict(list)] whose key order matters. *)
Fixpoint dict_append {V} (k : string) (x : V) (d : list (string * list V))
  : list (string * list V) :=
  match d with
  | [] => [(k, [x])]
  | (k', xs) :: d' =>
      if String.eqb k' k then (k', (xs ++ [x])%list) :: d'
      else (k', xs) :: dict_append k x d'
  end.

Record pass1 := Pass1 {
  athlete_sessions : list (string * list session_info);
  injured_candidates : list candidate;
  session_durations : gmap string (list Q) }.

Definition pass1_step (st : pass1) (f : file) : pass1 :=
  match read_session f with
  | None => st
  | Some s =>
      {| athlete_sessions := dict_append (athlete_id s) s (athlete_sessions st);
         session_durations :=
           <[ activity_id s :=
                (default [] (session_durations st !! activity_id s)
                   ++ [duration_minutes s])%list ]> (session_durations st);
         injured_candidates := (injured_candidates st ++ flag s)%list |}
  end.

(** The entries one iteration appends to [injured_candidates]. *)
Definition flagged_by (f : file) : list candidate :=
  match read_session f with Some s => flag s | None => [] end.

Definition first_pass (files : list file) : pass1 :=
  fold_left pass1_step files
    {| athlete_sessions := []; injured_candidates := []; session_durations := ∅ |}.

(** [sum(durations) / len(durations) if durations else 0]. *)
Definition average (durations : list Q) : Q :=
  match durations with
  | [] => 0%Q
  | _ => (fold_left Qplus durations 0 / inject_Z (Z.of_nat (length durations)))%Q
  end.

Definition activity_avg_duration (st : pass1) : gmap string Q :=
  average <$> session_durations st.

(** Lines 107-118: what the early-termination pass appends for a session. *)
Definition early_exit (avg : gmap string Q) (session : session_info)
  : list candidate :=
  let avg_duration := default 0%Q (avg !! activity_id session) in
  if Py.Qlt_bool 10 avg_duration && Py.Qlt_bool 0 (duration_minutes session) then
    if Py.Qlt_bool (duration_minutes session) (avg_duration * (1 # 2)) then
      [ {| info := session;
           reason := "EARLY EXIT (" ++ Py.format_1f (duration_minutes session)
                       ++ " min vs avg " ++ Py.format_1f avg_duration ++ " min)";
           avg_duration := Some avg_duration |} ]
    else []
  else [].

(** [injured_candidates] as it stands at line 119. *)
Definition all_candidates (files : list file) : list candidate :=
  let st := first_pass files in
  let avg := activity_avg_duration st in
  (injured_candidates st
     ++ flat_map (fun kv => flat_map (early_exit avg) (snd kv))
          (athlete_sessions st))%list.

Definition key (c : candidate) : string * string :=
  (athlete_id (info c), activity_id (info c)).

(** Lines 121-127, threading [seen] and [unique_injured]. *)
Definition dedup_step (st : gset (string * string) * list candidate)
    (c : candidate) : gset (string * string) * list candidate :=
  if decide (key c ∈ fst st) then st
  else ({[ key c ]} ∪ fst st, (snd st ++ [c])%list).

Definition dedup (cs : list candidate) : list candidate :=
  snd (fold_left dedup_step cs (∅, [])).

(** Order of the sort keys [(date, athlete_name)]: tuples compare
    lexicographically, strings by code point. *)
Definition sort_key (c : candidate) : string * string :=
  (date (info c), athlete_name (info c)).

Definition key_lt (x y : string * string) : bool :=
  match String.compare (fst x) (fst y) with
  | Lt => true
  | Gt => false
  | Eq => String.ltb (snd x) (snd y)
  end.

(** [list.sort(key=...)] is stable: an element goes in front of the first
    one that is not smaller than it. *)
Fixpoint insert (c : candidate) (l : list candidate) : list candidate :=
  match l with
  | [] => [c]
  | y :: l' =>
      if key_lt (sort_key y) (sort_key c) then y :: insert c l'
      else c :: l
  end.

Definition sort (l : list candidate) : list candidate :=
  fold_right insert [] l.

(** [x] may precede [y] in a list sorted by [sort_key]. *)
Definition by_sort_key (x y : candidate) : Prop :=
  Py.tuple_le (sort_key x) (sort_key y).

Definition unique_injured (cs : list candidate) : list candidate :=
  sort (dedup cs).

Definition analyze_injuries (files : list file) : list candidate :=
  unique_injured (all_candidates files).

End DetectInjuries.

(** ** [process_injury_dates.py] *)

Module ProcessInjuryDates.

(** A row of the frame returned by [parse_injury_dates].  [injury_date] is
    a [Timestamp] at midnight, kept as its day number; [strftime] with
    ['%Y-%m-%d'] prints that day and is left as the day number too. *)
Record injury := Injury {
  injury_date : Z;
  athlete_name : string;
  injury_type : option string }.

Record date_range := DateRange {
  dr_athlete_name : string;
  date : Z;
  dr_injury_date : Z;
  days_until_injury : Z;
  risk_level : string;
  dr_injury_type : string }.

(** [date - timedelta(days=i)]. *)
Definition minus_days (d i : Z) : Z := (d - i)%Z.

(** The body of [for i in range(lookback_days, -1, -1)]. *)
Definition range_row (inj : injury) (i : Z) : date_range :=
  let date := minus_days (injury_date inj) i in
  let risk_level :=
    if (i =? 0)%Z then "injury_day"
    else if (i <=? 3)%Z then "high_risk"
    else "moderate_risk" in
  {| dr_athlete_name := athlete_name inj;
     date := date;
     dr_injury_date := injury_date inj;
     days_until_injury := i;
     risk_level := risk_level;
     dr_injury_type :=
       match injury_type inj with Some t => t | None => "unknown" end |}.

Definition create_date_ranges (injury_df : list injury) (lookback_days : Z)
  : list date_range :=
  flat_map (fun inj => map (range_row inj) (Py.range_down lookback_days))
    injury_df.

(** The default of the [lookback_days] parameter. *)
Definition lookback_days_default : Z := 7.

(** [identify_missing_dates], on the ['date'] column of the date ranges as
    it is written out (one string per row) and the available dates. *)
Definition identify_missing_dates (dates available_dates : list string)
  : list string :=
  let needed_dates : gset string := list_to_set (Pandas.unique dates) in
  let available_dates : gset string := list_to_set available_dates in
  Py.sorted (elements (needed_dates ∖ available_dates)).

(** The lines of the collection script.  In the source no comma follows the
    [cd] line, so the empty string after it is glued to it. *)
Definition script_lines (missing_dates : list string) : list string :=
  ([ "#!/bin/bash";
     "# Auto-generated script to collect missing injury date data";
     "";
     (("cd " ++ Py.dquote ++ "$(dirname " ++ Py.dquote ++ "$0" ++ Py.dquote
         ++ ")/.." ++ Py.dquote) ++ "")%string;
     "echo 'Collecting data for injury analysis...'";
     "echo ''" ]
   ++ flat_map (fun date =>
                  [ ("echo 'Collecting " ++ date ++ "...'")%string;
                    ("python3 scripts/data_collector.py --date " ++ date)%string;
                    "" ]) missing_dates
   ++ [ "echo 'Data collection complete!'";
        "echo 'Run: python3 scripts/process_injury_dates.py to update labels'" ])%list.

(** [generate_collection_script]: the text written to the output file, or
    [None] when there is nothing to collect and no file is written. *)
Definition generate_collection_script (missing_dates : list string)
  : option string :=
  match missing_dates with
  | [] => None
  | _ => Some (String.concat Py.newline (script_lines missing_dates))
  end.

End ProcessInjuryDates.

(** ** [create_labeled_dataset.py] *)

Module CreateLabeledDataset.

(** A row of [injury_dates.csv], with the two columns the script reads. *)
Record injury := Injury {
  athlete_name : string;
  injury_date : string }.

(** A feature row with the two columns added by the script. *)
Record labeled_row := LabeledRow {
  base : RollingWindowFeatures.rolling_row;
  injured : bool;
  risk_level : string }.

(** Lines 32-35. *)
Definition injury_lookup (injuries_df : list injury) : gset (string * string) :=
  fold_left (fun lookup row => {[ (athlete_name row, injury_date row) ]} ∪ lookup)
    injuries_df ∅.

(** [.map({True: 'injured', False: 'normal'})]. *)
Definition risk_of (injured : bool) : string :=
  if injured then "injured" else "normal".

Definition label (lookup : gset (string * string))
    (row : RollingWindowFeatures.rolling_row) : labeled_row :=
  let injured :=
    bool_decide ((RollingWindowFeatures.athlete_name row,
                  RollingWindowFeatures.date row) ∈ lookup) in
  {| base := row; injured := injured; risk_level := risk_of injured |}.

Definition create_labeled_dataset
    (features_df : list RollingWindowFeatures.rolling_row)
    (injuries_df : list injury) : list labeled_row :=
  map (label (injury_lookup injuries_df)) features_df.

End CreateLabeledDataset.

(** ** [train_model.py] *)

Module TrainModel.

(** A row of [labeled_training_data.csv]: its date, its label, and the
    values of the eighteen [feature_cols], an empty cell being [None]. *)
Record row := Row {
  date : string;
  injured : bool;
  feature_values : list (option Q) }.

(** [df[feature_cols].fillna(0)], one row. *)
Definition fillna (r : row) : list Q :=
  map (fun x => match x with Some q => q | None => 0%Q end) (feature_values r).

(** [s[mask]] with a boolean mask: the selected entries keep their index
    label. *)
Fixpoint select {A} (idx : nat) (l : list A) (mask : list bool)
  : list (nat * A) :=
  match l, mask with
  | x :: l', b :: mask' =>
      if b then (idx, x) :: select (S idx) l' mask'
      else select (S idx) l' mask'
  | _, _ => []
  end.

Definition train_date : string := "2025-01-09".
Definition test_date : string := "2025-01-17".

Record split := Split {
  X_train : list (nat * list Q);
  X_test : list (nat * list Q);
  y_train : list (nat * bool);
  y_test : list (nat * bool) }.

(** Lines 42-50 of [train_injury_model]. *)
Definition temporal_split (df : list row) : split :=
  let X := map fillna df in
  let y := map injured df in
  let train_mask := map (fun r => String.eqb (date r) train_date) df in
  let test_mask := map (fun r => String.eqb (date r) test_date) df in
  {| X_train := select 0 X train_mask;
     X_test := select 0 X test_mask;
     y_train := select 0 y train_mask;
     y_test := select 0 y test_mask |}.

End TrainModel.

(** ** Sample data *)

Module Examples.

(** Two minutes of samples at 1 Hz, velocity constant 5. *)
Definition steady_samples : list RollingWindowFeatures.sample :=
  map (fun k => RollingWindowFeatures.Sample (inject_Z (Z.of_nat k)) 5 0 0 0 0)
    (seq 0 120).

Definition steady_file : RollingWindowFeatures.session_file :=
  {| RollingWindowFeatures.name := "2025-01-09_1042_7731.json";
     RollingWindowFeatures.content :=
       RollingWindowFeatures.JObject
         {| RollingWindowFeatures.athlete_id := Some "1042";
            RollingWindowFeatures.athlete_first_name := Some "Ada";
            RollingWindowFeatures.athlete_last_name := Some "Byron";
            RollingWindowFeatures.data := steady_samples |} |}.

(** The last elapsed minute of [steady_samples]: 119 seconds. *)
Definition steady_total : Q := (119 # 60)%Q.

(** A frame of three samples with velocity 5, and one of a single sample. *)
Definition three_rows : list RollingWindowFeatures.frame_row :=
  RollingWindowFeatures.frame
    [ RollingWindowFeatures.Sample 0 5 1 0 3 2;
      RollingWindowFeatures.Sample 1 5 2 1 4 2;
      RollingWindowFeatures.Sample 2 5 0 3 5 2 ]%Q.

(** A day of short drills: mean duration 6 minutes, one session of 2. *)
Definition short_day : list AutoDetectInjuries.session :=
  [ AutoDetectInjuries.Session "2025-01-09" "Ada Byron" "1042" 4800 8;
    AutoDetectInjuries.Session "2025-01-09" "Bo Chen" "1043" 4800 8;
    AutoDetectInjuries.Session "2025-01-09" "Cy Diaz" "1044" 1200 2;
    AutoDetectInjuries.Session "2025-01-09" "Di Evans" "1045" 300 8;
    AutoDetectInjuries.Session "2025-01-17" "Ada Byron" "1042" 36000 60 ]%Q.

Definition injury_dates : list AutoDetectInjuries.injury_row :=
  [ AutoDetectInjuries.InjuryRow "2025-01-09" "Unknown A" None [("injury_type", "hamstring")];
    AutoDetectInjuries.InjuryRow "2025-01-09" "Bo Chen" (Some "seen by physio") [];
    AutoDetectInjuries.InjuryRow "2025-01-09" "Unknown B" None [] ].

Definition detections : gmap string (list AutoDetectInjuries.detected) :=
  {[ "2025-01-09" :=
       [ AutoDetectInjuries.Detected "Cy Diaz" "1044" "NO DATA" 0 0;
         AutoDetectInjuries.Detected "Di Evans" "1045" "MINIMAL DATA" 300 8 ]%Q ]}.

(** Two recordings of one activity: fifty points over 9.8 minutes, and two
    points an hour apart. *)
Definition brief : DetectInjuries.file :=
  {| DetectInjuries.file_path := "data/2025-01-09_1042_7731.json";
     DetectInjuries.name := "2025-01-09_1042_7731.json";
     DetectInjuries.st_size := 5000;
     DetectInjuries.content :=
       Some (DetectInjuries.JArray
               [ {| DetectInjuries.athlete_first_name := Some "Ada";
                    DetectInjuries.athlete_last_name := Some "Byron";
                    DetectInjuries.data :=
                      map (fun k => DetectInjuries.Point
                                      (Some (inject_Z (Z.of_nat (12 * k)))))
                        (seq 0 50) |} ]) |}.

Definition sparse : DetectInjuries.file :=
  {| DetectInjuries.file_path := "data/2025-01-09_1043_7731.json";
     DetectInjuries.name := "2025-01-09_1043_7731.json";
     DetectInjuries.st_size := 5000;
     DetectInjuries.content :=
       Some (DetectInjuries.JObject
               {| DetectInjuries.athlete_first_name := Some "Bo";
                  DetectInjuries.athlete_last_name := Some "Chen";
                  DetectInjuries.data :=
                    [ DetectInjuries.Point (Some 0%Q);
                      DetectInjuries.Point (Some 3600%Q) ] |}) |}.

Definition empty_file : DetectInjuries.file :=
  {| DetectInjuries.file_path := "data/2025-01-08_1044_7730.json";
     DetectInjuries.name := "2025-01-08_1044_7730.json";
     DetectInjuries.st_size := 2;
     DetectInjuries.content := Some (DetectInjuries.JArray []) |}.

Definition files : list DetectInjuries.file := [brief; sparse; empty_file].

Definition training_data : list TrainModel.row :=
  [ TrainModel.Row "2025-01-09" false [Some 5; None]%Q;
    TrainModel.Row "2025-01-17" true [Some 3; Some 1]%Q;
    TrainModel.Row "2025-01-12" false [None; None] ].

Definition some_features : RollingWindowFeatures.features :=
  {| RollingWindowFeatures.window_minutes := 5;
     RollingWindowFeatures.data_points := 3000;
     RollingWindowFeatures.avg_velocity := Some 2%Q;
     RollingWindowFeatures.max_velocity := Some 7%Q;
     RollingWindowFeatures.std_velocity := Some (Pandas.Sqrt 1);
     RollingWindowFeatures.p90_velocity := Some 5%Q;
     RollingWindowFeatures.avg_acceleration := Some 0%Q;
     RollingWindowFeatures.max_acceleration := Some 3%Q;
     RollingWindowFeatures.std_acceleration := Some (Pandas.Sqrt 1);
     RollingWindowFeatures.p90_acceleration := Some 2%Q;
     RollingWindowFeatures.cumulative_player_load := 40;
     RollingWindowFeatures.avg_player_load_rate := 8;
     RollingWindowFeatures.avg_metabolic_power := Some 9%Q;
     RollingWindowFeatures.max_metabolic_power := Some 30%Q;
     RollingWindowFeatures.p90_metabolic_power := Some 20%Q;
     RollingWindowFeatures.recent_avg_velocity := Some 2%Q;
     RollingWindowFeatures.recent_max_acceleration := Some 3%Q;
     RollingWindowFeatures.avg_smooth_load := Some 1%Q |}.

Definition feature_rows : list RollingWindowFeatures.rolling_row :=
  [ RollingWindowFeatures.RollingRow some_features "2025-01-09" "1042"
      "Ada Byron" "7731" (Some 60%Q);
    RollingWindowFeatures.RollingRow some_features "2025-01-09" "1043"
      "Bo Chen" "7731" (Some 60%Q) ].

Definition labels : list CreateLabeledDataset.injury :=
  [ CreateLabeledDataset.Injury "Bo Chen" "2025-01-09";
    CreateLabeledDataset.Injury "Ada Byron" "2025-01-17" ].


(** A third recording of the same activity: a hundred points over five
    minutes. *)
Definition cut_short : DetectInjuries.file :=
  {| DetectInjuries.file_path := "data/2025-01-09_1046_7731.json";
     DetectInjuries.name := "2025-01-09_1046_7731.json";
     DetectInjuries.st_size := 4200;
     DetectInjuries.content :=
       Some (DetectInjuries.JObject
               {| DetectInjuries.athlete_first_name := Some "Ed";
                  DetectInjuries.athlete_last_name := Some "Fox";
                  DetectInjuries.data :=
                    map (fun k => DetectInjuries.Point
                                    (Some (inject_Z (Z.of_nat (3 * k)))))
                      (seq 0 100) |}) |}.

Definition more_files : list DetectInjuries.file := [brief; sparse; cut_short].





End Examples.

(** * Properties *)

(** Case analysis on every [match] and [if] of the goal. *)
Ltac case_branches :=
  repeat match goal with
         | |- context [match ?x with _ => _ end] => destruct x
         end.

(** ** The per-day heuristic and the update of [injury_dates.csv] *)

Section AutoDetectFacts.
Import AutoDetectInjuries.




Lemma iterrows_from {A} (l : list A) (n j : nat) (x : A) :
  In (j, x) (combine (seq n (length l)) l) ->
  (n <= j)%nat /\ l !! (j - n)%nat = Some x.
Proof.
  revert n. induction l as [|y l IH]; intros n; simpl; [intros []|].
  intros [E | Hin].
  - inversion E; subst. rewrite Nat.sub_diag. auto.
  - apply IH in Hin as [Hle Hl]. split; [lia|].
    replace (j - n)%nat with (S (j - S n)) by lia. exact Hl.
Qed.

Lemma iterrows_lookup {A} (l : list A) (j : nat) (x : A) :
  In (j, x) (iterrows l) -> l !! j = Some x.
Proof.
  intros H. apply iterrows_from in H as [_ H].
  now rewrite Nat.sub_0_r in H.
Qed.

Lemma set_at_other (idx i : nat) d note st :
  idx <> i -> fst (set_at idx d note st) !! i = fst st !! i.
Proof. intros Hne. simpl. now apply list_lookup_alter_ne. Qed.

Lemma set_at_length idx d note st :
  length (fst (set_at idx d note st)) = length (fst st).
Proof. simpl. apply length_alter. Qed.

(** One iteration leaves every row other than its own alone, and its own
    too when the name read for it has no 'Unknown'. *)
Lemma update_step_frame det st (it : nat * injury_row) (i : nat) :
  (fst it = i -> Py.str_in "Unknown" (inj_athlete_name (snd it)) = false) ->
  fst (update_step det st it) !! i = fst st !! i.
Proof.
  intros Hit. unfold update_step.
  destruct (Py.str_in "Unknown" (inj_athlete_name (snd it))) eqn:HU; simpl; [|reflexivity].
  assert (Hne : fst it <> i) by (intros E; specialize (Hit E); discriminate).
  case_branches; try reflexivity; now apply set_at_other.
Qed.

Lemma update_step_length det st it :
  length (fst (update_step det st it)) = length (fst st).
Proof.
  unfold update_step.
  case_branches; try reflexivity; apply set_at_length.
Qed.

Lemma update_fold_frame det (its : list (nat * injury_row)) st (i : nat) :
  (forall it, In it its -> fst it = i ->
              Py.str_in "Unknown" (inj_athlete_name (snd it)) = false) ->
  fst (fold_left (update_step det) its st) !! i = fst st !! i.
Proof.
  revert st. induction its as [|it its IH]; intros st Hall; simpl; [reflexivity|].
  rewrite IH by (intros; apply Hall; simpl; auto).
  apply update_step_frame, Hall. simpl; auto.
Qed.

Lemma update_fold_length det (its : list (nat * injury_row)) st :
  length (fst (fold_left (update_step det) its st)) = length (fst st).
Proof.
  revert st. induction its as [|it its IH]; intros st; simpl; [reflexivity|].
  rewrite IH. apply update_step_length.
Qed.

(** C10.  [update_injury_dates_csv] keeps the number of rows, and a row whose
    athlete name does not contain 'Unknown' comes out as it went in: its
    [athlete_name], its [notes] and every other column. *)
Theorem update_touches_only_unknown
    (df_injuries : list injury_row)
    (detected_injuries : gmap string (list detected)) :
  length (update_injury_dates_csv df_injuries detected_injuries)
    = length df_injuries
  /\ forall (idx : nat) (row : injury_row),
      df_injuries !! idx = Some row ->
      Py.str_in "Unknown" (inj_athlete_name row) = false ->
      update_injury_dates_csv df_injuries detected_injuries !! idx = Some row.
Proof.
  unfold update_injury_dates_csv, update_loop. split.
  - apply update_fold_length.
  - intros idx row Hrow HU. rewrite update_fold_frame; [exact Hrow|].
    intros [j r] Hin Hj. simpl in *. subst j.
    apply iterrows_lookup in Hin. congruence.
Qed.

End AutoDetectFacts.

(** ** The temporal split *)

Section TrainModelFacts.
Import TrainModel.

Lemma select_spec {A} (l : list A) (mask : list bool) (n i : nat) (x : A) :
  In (i, x) (select n l mask) <->
  (n <= i)%nat /\ l !! (i - n)%nat = Some x /\ mask !! (i - n)%nat = Some true.
Proof.
  revert mask n. induction l as [|y l IH]; intros mask n.
  - simpl. split; [intros [] | intros (_ & H & _); discriminate].
  - destruct mask as [|b mask].
    + simpl. split; [intros [] | intros (_ & _ & H); discriminate].
    + assert (Hrest : In (i, x) (select (S n) l mask) <->
                      (n < i)%nat /\ (y :: l) !! (i - n)%nat = Some x
                      /\ (b :: mask) !! (i - n)%nat = Some true).
      { rewrite IH. split.
        - intros (Hle & Hl & Hm).
          replace (i - n)%nat with (S (i - S n)) by lia. auto with lia.
        - intros (Hlt & Hl & Hm).
          replace (i - n)%nat with (S (i - S n)) in Hl, Hm by lia.
          auto with lia. }
      simpl. destruct b; simpl; rewrite Hrest.
      * split.
        -- intros [E | (Hlt & Hl & Hm)]; [|auto with lia].
           inversion E; subst. rewrite Nat.sub_diag. auto.
        -- intros (Hle & Hl & Hm).
           destruct (decide (i = n)) as [-> | Hne]; [|right; auto with lia].
           rewrite Nat.sub_diag in Hl. simpl in Hl. left. congruence.
      * split; [intros (Hlt & Hl & Hm); auto with lia|].
        intros (Hle & Hl & Hm).
        destruct (decide (i = n)) as [-> | Hne]; [|auto with lia].
        rewrite Nat.sub_diag in Hm. discriminate.
Qed.

(** Selection by the mask of a date: the entry labelled [i] is there exactly
    when row [i] has that date, and it is the image of that row. *)
Lemma select_by_date {B} (f : row -> B) (df : list row) (day : string)
    (i : nat) (r : row) (x : B) :
  df !! i = Some r ->
  In (i, x) (select 0 (map f df) (map (fun r => String.eqb (date r) day) df))
  <-> x = f r /\ date r = day.
Proof.
  intros Hr. rewrite select_spec, Nat.sub_0_r, !list_lookup_fmap, Hr. simpl.
  split.
  - intros (_ & E1 & E2). split; [congruence|].
    apply String.eqb_eq. congruence.
  - intros [-> E]. apply String.eqb_eq in E. rewrite E. auto with lia.
Qed.

(** C8.  For the labeled row at index [idx]: it is in the training
    partition ([X_train] and [y_train]) iff its date is the training date,
    in the test partition iff its date is the test date, never in both, and
    in neither when its date is neither of the two. *)
Theorem temporal_split_by_date (df : list row) (idx : nat) (r : row) :
  df !! idx = Some r ->
  let s := temporal_split df in
  (forall x, In (idx, x) (X_train s) <-> x = fillna r /\ date r = train_date)
  /\ (forall b, In (idx, b) (y_train s) <-> b = injured r /\ date r = train_date)
  /\ (forall x, In (idx, x) (X_test s) <-> x = fillna r /\ date r = test_date)
  /\ (forall b, In (idx, b) (y_test s) <-> b = injured r /\ date r = test_date)
  /\ ~ (In idx (map fst (X_train s)) /\ In idx (map fst (X_test s)))
  /\ (date r <> train_date -> date r <> test_date ->
      ~ In idx (map fst (X_train s)) /\ ~ In idx (map fst (X_test s))).
Proof.
  intros Hr s.
  assert (Htr : forall x, In (idx, x) (X_train s) <-> x = fillna r /\ date r = train_date)
    by (intros; now apply select_by_date).
  assert (Hte : forall x, In (idx, x) (X_test s) <-> x = fillna r /\ date r = test_date)
    by (intros; now apply select_by_date).
  assert (Hytr : forall b, In (idx, b) (y_train s) <-> b = injured r /\ date r = train_date)
    by (intros; now apply (select_by_date injured)).
  assert (Hyte : forall b, In (idx, b) (y_test s) <-> b = injured r /\ date r = test_date)
    by (intros; now apply (select_by_date injured)).
  assert (Hin : forall (l : list (nat * list Q)),
             In idx (map fst l) -> exists x, In (idx, x) l).
  { intros l H. apply in_map_iff in H as ([j x] & E & Hjx).
    simpl in E. subst j. eauto. }
  split; [exact Htr|]. split; [exact Hytr|].
  split; [exact Hte|]. split; [exact Hyte|]. split.
  - intros [H1 H2]. apply Hin in H1 as [x1 H1]. apply Hin in H2 as [x2 H2].
    apply Htr in H1 as [_ E1]. apply Hte in H2 as [_ E2].
    rewrite E1 in E2. discriminate.
  - intros N1 N2. split; intros H; apply Hin in H as [x H].
    + apply Htr in H as [_ E]. contradiction.
    + apply Hte in H as [_ E]. contradiction.
Qed.

End TrainModelFacts.

(** ** Joining feature rows to injury labels *)

Section LabeledDatasetFacts.
Import CreateLabeledDataset.

Lemma injury_lookup_fold (injuries_df : list injury)
    (lookup : gset (string * string)) (k : string * string) :
  k ∈ fold_left
        (fun lookup row => {[ (athlete_name row, injury_date row) ]} ∪ lookup)
        injuries_df lookup
  <-> k ∈ lookup
      \/ exists inj, In inj injuries_df /\ (athlete_name inj, injury_date inj) = k.
Proof.
  revert lookup. induction injuries_df as [|row df IH]; intros lookup; simpl.
  - split; [auto | intros [H | (inj & [] & _)]; exact H].
  - rewrite IH, elem_of_union, elem_of_singleton. split.
    + intros [[-> | H] | (inj & Hin & E)]; eauto.
    + intros [H | (inj & [-> | Hin] & E)]; eauto.
Qed.

Lemma injury_lookup_spec (injuries_df : list injury) (name day : string) :
  (name, day) ∈ injury_lookup injuries_df
  <-> exists inj, In inj injuries_df
                  /\ athlete_name inj = name /\ injury_date inj = day.
Proof.
  unfold injury_lookup. rewrite injury_lookup_fold. split.
  - intros [H | (inj & Hin & E)]; [set_solver|].
    inversion E; subst. eauto.
  - intros (inj & Hin & <- & <-). right. eauto.
Qed.

(** C9.  Every feature row is kept, at its position.  Its [injured] flag is
    true iff some row of the injury table has its athlete name and date; its
    [risk_level] is 'injured' when the pair is present, and the flag is false
    with [risk_level] 'normal' when the pair is absent. *)
Theorem label_by_name_and_date
    (features_df : list RollingWindowFeatures.rolling_row)
    (injuries_df : list injury) (idx : nat)
    (row : RollingWindowFeatures.rolling_row) :
  features_df !! idx = Some row ->
  let present :=
    exists inj, In inj injuries_df
                /\ athlete_name inj = RollingWindowFeatures.athlete_name row
                /\ injury_date inj = RollingWindowFeatures.date row in
  exists out,
    create_labeled_dataset features_df injuries_df !! idx = Some out
    /\ base out = row
    /\ (injured out = true <-> present)
    /\ (present -> risk_level out = "injured")
    /\ (~ present -> injured out = false /\ risk_level out = "normal").
Proof.
  intros Hrow present. unfold create_labeled_dataset.
  rewrite list_lookup_fmap, Hrow. simpl. eexists; split; [reflexivity|].
  unfold label; simpl.
  assert (Hiff : bool_decide
                   ((RollingWindowFeatures.athlete_name row,
                     RollingWindowFeatures.date row) ∈ injury_lookup injuries_df)
                 = true <-> present).
  { rewrite bool_decide_eq_true. apply injury_lookup_spec. }
  split; [reflexivity|]. split; [exact Hiff|]. split.
  - intros Hp. apply Hiff in Hp. now rewrite Hp.
  - intros Hn.
    destruct (bool_decide _) eqn:E; [exfalso; apply Hn, Hiff; reflexivity|].
    auto.
Qed.

End LabeledDatasetFacts.

(** ** The lookback expansion *)

Section ProcessInjuryDatesFacts.
Import ProcessInjuryDates.

(** C7.  With the default lookback of 7 days, [create_date_ranges] turns
    each injury record into eight consecutive rows, for the day offsets 7
    down to 0 before the injury date: 'moderate_risk' at offsets 7 to 4,
    'high_risk' at offsets 3 to 1 and 'injury_day' at offset 0; the table has
    eight rows per record. *)
Theorem lookback_expansion (injury_df : list injury) :
  let entry (inj : injury) (offset : Z) (level : string) :=
    {| dr_athlete_name := athlete_name inj;
       date := (injury_date inj - offset)%Z;
       dr_injury_date := injury_date inj;
       days_until_injury := offset;
       risk_level := level;
       dr_injury_type :=
         match injury_type inj with Some t => t | None => "unknown" end |} in
  create_date_ranges injury_df lookback_days_default
  = flat_map (fun inj =>
      [ entry inj 7%Z "moderate_risk"; entry inj 6%Z "moderate_risk";
        entry inj 5%Z "moderate_risk"; entry inj 4%Z "moderate_risk";
        entry inj 3%Z "high_risk"; entry inj 2%Z "high_risk";
        entry inj 1%Z "high_risk"; entry inj 0%Z "injury_day" ]) injury_df
  /\ length (create_date_ranges injury_df lookback_days_default)
     = (8 * length injury_df)%nat.
Proof.
  intros entry. split.
  - reflexivity.
  - unfold create_date_ranges.
    induction injury_df as [|inj df IH]; [reflexivity|].
    cbn [flat_map]. rewrite length_app, IH. cbn [length]. simpl. lia.
Qed.

End ProcessInjuryDatesFacts.

(** ** Order of strings and of sort keys *)

Section StringOrder.

Lemma ascii_compare_refl (c : ascii) : Ascii.compare c c = Eq.
Proof. apply N.compare_refl. Qed.

Lemma ascii_compare_lt_trans (x y z : ascii) :
  Ascii.compare x y = Lt -> Ascii.compare y z = Lt -> Ascii.compare x z = Lt.
Proof.
  unfold Ascii.compare. rewrite !N.compare_lt_iff. apply N.lt_trans.
Qed.

Lemma string_compare_refl (s : string) : String.compare s s = Eq.
Proof.
  induction s as [|c s IH]; simpl; [reflexivity|].
  now rewrite ascii_compare_refl.
Qed.

Lemma string_compare_lt_trans (s1 s2 s3 : string) :
  String.compare s1 s2 = Lt -> String.compare s2 s3 = Lt ->
  String.compare s1 s3 = Lt.
Proof.
  revert s2 s3. induction s1 as [|c1 s1 IH]; intros [|c2 s2] [|c3 s3];
    simpl; try discriminate; try reflexivity.
  destruct (Ascii.compare c1 c2) eqn:E12; try discriminate;
    destruct (Ascii.compare c2 c3) eqn:E23; try discriminate; intros H12 H23.
  - apply Ascii.compare_eq_iff in E12, E23. subst.
    rewrite ascii_compare_refl. eauto.
  - apply Ascii.compare_eq_iff in E12. subst. now rewrite E23.
  - apply Ascii.compare_eq_iff in E23. subst. now rewrite E12.
  - now rewrite (ascii_compare_lt_trans _ _ _ E12 E23).
Qed.

Lemma string_leb_trans (s1 s2 s3 : string) :
  String.leb s1 s2 = true -> String.leb s2 s3 = true -> String.leb s1 s3 = true.
Proof.
  unfold String.leb.
  destruct (String.compare s1 s2) eqn:E12; try discriminate;
    destruct (String.compare s2 s3) eqn:E23; try discriminate; intros _ _.
  - apply String.compare_eq_iff in E12, E23. subst.
    now rewrite string_compare_refl.
  - apply String.compare_eq_iff in E12. subst. now rewrite E23.
  - apply String.compare_eq_iff in E23. subst. now rewrite E12.
  - now rewrite (string_compare_lt_trans _ _ _ E12 E23).
Qed.

Lemma key_le_tuple_le (x y : string * string) :
  DetectInjuries.key_lt y x = false <-> Py.tuple_le x y.
Proof.
  unfold DetectInjuries.key_lt, Py.tuple_le, String.ltb, String.leb.
  rewrite (String.compare_antisym (fst y) (fst x)).
  rewrite (String.compare_antisym (snd y) (snd x)).
  destruct (String.compare (fst x) (fst y)) eqn:E1; simpl.
  - apply String.compare_eq_iff in E1.
    destruct (String.compare (snd x) (snd y)); simpl; intuition congruence.
  - intuition.
  - split; [discriminate|]. intros [H | [E _]]; [discriminate|].
    rewrite E, string_compare_refl in E1. discriminate.
Qed.

Lemma key_lt_le (x y : string * string) :
  DetectInjuries.key_lt x y = true -> Py.tuple_le x y.
Proof.
  unfold DetectInjuries.key_lt, Py.tuple_le, String.ltb, String.leb.
  destruct (String.compare (fst x) (fst y)) eqn:E1; try discriminate; auto.
  apply String.compare_eq_iff in E1.
  destruct (String.compare (snd x) (snd y)); try discriminate; auto.
Qed.

Lemma tuple_le_trans (x y z : string * string) :
  Py.tuple_le x y -> Py.tuple_le y z -> Py.tuple_le x z.
Proof.
  unfold Py.tuple_le, String.ltb.
  intros [H1 | [E1 H1]] [H2 | [E2 H2]].
  - left. destruct (String.compare (fst x) (fst y)) eqn:C1; try discriminate.
    destruct (String.compare (fst y) (fst z)) eqn:C2; try discriminate.
    now rewrite (string_compare_lt_trans _ _ _ C1 C2).
  - left. now rewrite <- E2.
  - left. now rewrite E1.
  - right. split; [congruence|]. eapply string_leb_trans; eassumption.
Qed.

End StringOrder.

(** ** The per-file heuristic, deduplication and sorting *)

Section DetectInjuriesFacts.
Import DetectInjuries.

Lemma first_pass_candidates_from (files : list file) (st : pass1) :
  injured_candidates (fold_left pass1_step files st)
  = (injured_candidates st ++ flat_map flagged_by files)%list.
Proof.
  revert st. induction files as [|f files IH]; intros st; simpl.
  - now rewrite app_nil_r.
  - rewrite IH. unfold pass1_step, flagged_by.
    destruct (read_session f) as [s|]; simpl; [|reflexivity].
    now rewrite <- app_assoc.
Qed.

Lemma first_pass_candidates (files : list file) :
  injured_candidates (first_pass files) = flat_map flagged_by files.
Proof. unfold first_pass. now rewrite first_pass_candidates_from. Qed.





Lemma dedup_fold (cs : list candidate) (seen : gset (string * string))
    (acc : list candidate) (k : string * string) :
  List.filter (fun c => bool_decide (key c = k))
    (snd (fold_left dedup_step cs (seen, acc)))
  = (List.filter (fun c => bool_decide (key c = k)) acc
       ++ if decide (k ∈ seen) then []
          else option_list (List.find (fun c => bool_decide (key c = k)) cs))%list.
Proof.
  revert seen acc. induction cs as [|c cs IH]; intros seen acc; simpl.
  - destruct (decide (k ∈ seen)); now rewrite app_nil_r.
  - unfold dedup_step at 2. simpl.
    destruct (decide (key c ∈ seen)) as [Hin | Hout].
    + rewrite IH. destruct (decide (k ∈ seen)) as [|Hk]; [reflexivity|].
      rewrite bool_decide_eq_false_2; [reflexivity|].
      intros E. apply Hk. now rewrite <- E.
    + rewrite IH, List.filter_app. simpl.
      destruct (decide (key c = k)) as [E | Hne].
      * rewrite (bool_decide_eq_true_2 _ E).
        rewrite decide_True by (apply elem_of_union; left; now apply elem_of_singleton).
        rewrite decide_False by (now rewrite <- E).
        simpl. now rewrite app_nil_r.
      * rewrite (bool_decide_eq_false_2 _ Hne). rewrite app_nil_r.
        destruct (decide (k ∈ seen)) as [Hk | Hk].
        -- rewrite decide_True; [reflexivity|].
           apply elem_of_union. now right.
        -- rewrite decide_False; [reflexivity|].
           rewrite elem_of_union, elem_of_singleton. intros [E | E]; auto.
Qed.

Lemma dedup_first_seen (cs : list candidate) (k : string * string) :
  List.filter (fun c => bool_decide (key c = k)) (dedup cs)
  = option_list (List.find (fun c => bool_decide (key c = k)) cs).
Proof.
  unfold dedup. rewrite dedup_fold. simpl.
  rewrite decide_False by set_solver. reflexivity.
Qed.

Lemma insert_perm (c : candidate) (l : list candidate) :
  Permutation (insert c l) (c :: l).
Proof.
  induction l as [|y l IH]; simpl; [reflexivity|].
  destruct (key_lt (sort_key y) (sort_key c)); [|reflexivity].
  rewrite IH. apply perm_swap.
Qed.

Lemma sort_perm (l : list candidate) : Permutation (sort l) l.
Proof.
  induction l as [|c l IH]; simpl; [reflexivity|].
  rewrite insert_perm. now apply perm_skip.
Qed.

Lemma filter_perm (p : candidate -> bool) (l l' : list candidate) :
  Permutation l l' -> Permutation (List.filter p l) (List.filter p l').
Proof.
  induction 1 as [|x l l' _ IH|x y l|l l' l'' _ IH1 _ IH2]; simpl.
  - reflexivity.
  - destruct (p x); [now apply perm_skip | exact IH].
  - destruct (p x), (p y); try reflexivity. apply perm_swap.
  - now rewrite IH1.
Qed.

Lemma insert_sorted (c : candidate) (l : list candidate) :
  StronglySorted by_sort_key l -> StronglySorted by_sort_key (insert c l).
Proof.
  induction 1 as [|y l Hl IH Hy]; simpl.
  - repeat constructor.
  - destruct (key_lt (sort_key y) (sort_key c)) eqn:E.
    + constructor; [exact IH|].
      apply List.Forall_forall. intros z Hz.
      apply (Permutation_in _ (insert_perm c l)) in Hz as [<- | Hz].
      * now apply key_lt_le.
      * rewrite List.Forall_forall in Hy. now apply Hy.
    + apply key_le_tuple_le in E.
      constructor; [now constructor|]. constructor; [exact E|].
      eapply List.Forall_impl; [|exact Hy].
      intros z Hz. eapply tuple_le_trans; eassumption.
Qed.

Lemma sort_sorted (l : list candidate) : StronglySorted by_sort_key (sort l).
Proof.
  induction l as [|c l IH]; simpl; [constructor | now apply insert_sorted].
Qed.

End DetectInjuriesFacts.

Section UniqueInjured.
Import DetectInjuries.

(** C5.  For every key [(athlete_id, activity_id)] carried by some
    candidate, the list returned by [analyze_injuries] holds exactly one
    entry with that key, and it is the first candidate with that key in
    [injured_candidates], reason included; for a key no candidate carries
    it holds none.  The list is sorted ascending by [(date, athlete_name)]. *)
Theorem unique_injured_first_seen_sorted (files : list file) :
  let same (k : string * string) (c : candidate) := bool_decide (key c = k) in
  (forall k, List.filter (same k) (analyze_injuries files)
             = option_list (List.find (same k) (all_candidates files)))
  /\ (forall k c, In c (all_candidates files) -> key c = k ->
        exists first, List.find (same k) (all_candidates files) = Some first
                      /\ List.filter (same k) (analyze_injuries files) = [first])
  /\ StronglySorted
       (fun x y => Py.tuple_le (date (info x), athlete_name (info x))
                               (date (info y), athlete_name (info y)))
       (analyze_injuries files).
Proof.
  intros same.
  assert (Hone : forall k, List.filter (same k) (analyze_injuries files)
                           = option_list (List.find (same k) (all_candidates files))).
  { intros k. unfold analyze_injuries, unique_injured.
    pose proof (filter_perm (same k) _ _ (sort_perm (dedup (all_candidates files)))) as HP.
    unfold same in *. rewrite dedup_first_seen in HP.
    destruct (List.find _ (all_candidates files)) as [c|]; simpl in *.
    - symmetry in HP. now apply Permutation_length_1_inv in HP.
    - now apply Permutation_nil_r in HP. }
  split; [exact Hone|]. split.
  - intros k c Hin Hk.
    destruct (List.find (same k) (all_candidates files)) as [first|] eqn:E.
    + exists first. split; [reflexivity|]. now rewrite Hone, E.
    + exfalso. apply (List.find_none _ _ E) in Hin.
      unfold same in Hin. now rewrite bool_decide_eq_true_2 in Hin.
  - apply sort_sorted.
Qed.

End UniqueInjured.

(** ** Column statistics *)

Section PandasFacts.
Local Open Scope Q_scope.

Lemma count_cons (x : Q) (l : list Q) :
  Pandas.count (x :: l) == 1 + Pandas.count l.
Proof.
  unfold Pandas.count. cbn [length].
  rewrite Nat2Z.inj_succ, <- Z.add_1_l, inject_Z_plus. reflexivity.
Qed.

Lemma count_nonneg (l : list Q) : 0 <= Pandas.count l.
Proof.
  unfold Pandas.count. change 0 with (inject_Z 0).
  rewrite <- Zle_Qle. lia.
Qed.

Lemma sum_const (c : Q) (l : list Q) :
  List.Forall (fun x => x == c) l -> Pandas.sum l == Pandas.count l * c.
Proof.
  induction 1 as [|x l Hx _ IH].
  - unfold Pandas.sum, Pandas.count. simpl. ring.
  - rewrite count_cons. change (Pandas.sum (x :: l)) with (x + Pandas.sum l).
    rewrite IH, Hx. ring.
Qed.

(** The exact mean of a constant column is the constant; the binary64 mean
    need not be, see [Pandas.mean_float64]. *)
Lemma mean_const (c : Q) (l : list Q) :
  l <> [] -> List.Forall (fun x => x == c) l ->
  exists m, Pandas.mean l = Some m /\ m == c.
Proof.
  intros Hne Hall. destruct l as [|x l]; [contradiction|].
  eexists. split; [reflexivity|].
  rewrite (sum_const c) by exact Hall.
  assert (Hpos : ~ Pandas.count (x :: l) == 0).
  { rewrite count_cons. pose proof (count_nonneg l). lra. }
  field. exact Hpos.
Qed.



Lemma fold_max_ge (xs : list Q) (x : Q) :
  x <= fold_left Pandas.Qmax2 xs x
  /\ List.Forall (fun y => y <= fold_left Pandas.Qmax2 xs x) xs.
Proof.
  revert x. induction xs as [|y xs IH]; intros x; simpl.
  - split; [apply Qle_refl | constructor].
  - destruct (IH (Pandas.Qmax2 x y)) as [Hacc Hall].
    assert (Hxy : x <= Pandas.Qmax2 x y /\ y <= Pandas.Qmax2 x y).
    { unfold Pandas.Qmax2. destruct (Qle_bool x y) eqn:E.
      - apply Qle_bool_iff in E. split; [exact E | apply Qle_refl].
      - split; [apply Qle_refl|].
        destruct (Qlt_le_dec y x) as [H | H]; [now apply Qlt_le_weak|].
        apply Qle_bool_iff in H. congruence. }
    destruct Hxy as [Hx Hy]. split; [|constructor; [|exact Hall]];
      eapply Qle_trans; eassumption.
Qed.

Lemma max_ge (l : list Q) (m : Q) :
  Pandas.max l = Some m -> List.Forall (fun y => y <= m) l.
Proof.
  destruct l as [|x xs]; simpl; [discriminate|].
  intros E. inversion E; subst. destruct (fold_max_ge xs x). now constructor.
Qed.








End PandasFacts.

(** ** The rolling-window loop *)

Section RollingWindowFacts.
Import RollingWindowFeatures.
Local Open Scope Q_scope.

Lemma calculate_window_features_shape
    (df : list frame_row) (start_idx end_idx : nat) (w : Q) (f : features) :
  calculate_window_features df start_idx end_idx w = Some f ->
  window_minutes f = w
  /\ data_points f = length (Pandas.iloc start_idx end_idx df).
Proof.
  unfold calculate_window_features.
  destruct (Pandas.iloc start_idx end_idx df) as [|r0 rest]; [discriminate|].
  intros E. inversion E. auto.
Qed.

Lemma iloc_prefix {A} (l : list A) (n : nat) :
  (n <= length l)%nat -> length (Pandas.iloc 0 n l) = n.
Proof.
  intros Hn. unfold Pandas.iloc. rewrite Nat.sub_0_r, List.skipn_O.
  rewrite List.length_firstn. lia.
Qed.


Lemma mask_sum_le (df : list frame_row) (w : Q) :
  (mask_sum df w <= length df)%nat.
Proof. unfold mask_sum. apply List.filter_length_le. Qed.



(** On a frame ordered by elapsed time the masked samples are a prefix, the
    one [iloc] cuts at the mask's sum. *)
Lemma mask_is_prefix (df : list frame_row) (w : Q) :
  StronglySorted (fun r r' => minutes_from_start r <= minutes_from_start r') df ->
  List.filter (fun r => Qle_bool (minutes_from_start r) w) df
  = Pandas.iloc 0 (mask_sum df w) df.
Proof.
  unfold Pandas.iloc, mask_sum. rewrite Nat.sub_0_r, List.skipn_O.
  induction 1 as [|r df Hdf IH Hr]; simpl; [reflexivity|].
  destruct (Qle_bool (minutes_from_start r) w) eqn:E; simpl.
  - now rewrite IH at 1.
  - assert (Hnone : List.filter (fun r => Qle_bool (minutes_from_start r) w) df = []).
    { clear IH Hdf. induction Hr as [|r' df Hr' _ IH]; simpl; [reflexivity|].
      destruct (Qle_bool (minutes_from_start r') w) eqn:E'; [|exact IH].
      apply Qle_bool_iff in E'.
      assert (Hle : Qle_bool (minutes_from_start r) w = true)
        by (apply Qle_bool_iff; eapply Qle_trans; eassumption).
      congruence. }
    now rewrite Hnone.
Qed.

Lemma total_duration_bounds (df : list frame_row) (t : Q) :
  total_duration df = Some t ->
  List.Forall (fun r => minutes_from_start r <= t) df.
Proof.
  intros E. apply max_ge in E.
  rewrite List.Forall_forall in *. intros r Hr.
  apply E, in_map, Hr.
Qed.


(** What the loop emits: a row comes from a cutoff of the list that does
    not exceed the total duration and whose mask covers at least 100
    samples, and it is computed over exactly the masked count. *)
Lemma window_loop_rows df total d id nm act (ws : list Q) (row : rolling_row) :
  In row (window_loop df total d id nm act ws) ->
  exists w, In w ws
            /\ exceeds w total = false
            /\ (100 <= mask_sum df w)%nat
            /\ calculate_window_features df 0 (mask_sum df w) w = Some (feats row)
            /\ window_minutes (feats row) = w
            /\ data_points (feats row) = mask_sum df w.
Proof.
  induction ws as [|w ws IH]; simpl; [intros []|].
  destruct (exceeds w total) eqn:Ex; [intros []|].
  destruct (Nat.ltb_spec (mask_sum df w) 100) as [Hlt | Hge].
  - intros H. destruct (IH H) as (w' & Hw' & Hrest). exists w'. auto.
  - destruct (calculate_window_features df 0 (mask_sum df w) w) as [f|] eqn:Ef.
    + intros [<- | H].
      * exists w. simpl.
        destruct (calculate_window_features_shape _ _ _ _ _ Ef) as [Hw Hn].
        rewrite iloc_prefix in Hn by apply mask_sum_le. auto 7.
      * destruct (IH H) as (w' & Hw' & Hrest). exists w'. auto.
    + intros H. destruct (IH H) as (w' & Hw' & Hrest). exists w'. auto.
Qed.





End RollingWindowFacts.

(** ** The theorems on the sample data *)

Section WorkedExamples.
Local Open Scope Q_scope.






Lemma unique_injured_first_seen_sorted_example :
  exists first,
    List.find (fun c => bool_decide (DetectInjuries.key c = ("1042", "7731")))
      (DetectInjuries.all_candidates Examples.files) = Some first
    /\ DetectInjuries.reason first = "MINIMAL DATA (50 points)"
    /\ List.filter
         (fun c => bool_decide (DetectInjuries.key c = ("1042", "7731")))
         (DetectInjuries.analyze_injuries Examples.files) = [first].
Proof.
  eexists. split; [vm_compute; reflexivity|]. split; [reflexivity|].
  rewrite (proj1 (unique_injured_first_seen_sorted Examples.files) ("1042", "7731")).
  vm_compute. reflexivity.
Defined.




Lemma temporal_split_by_date_example :
  Examples.training_data !! 1%nat = Some (TrainModel.Row "2025-01-17" true [Some 3; Some 1])
  /\ In (1%nat, [3; 1])
        (TrainModel.X_test (TrainModel.temporal_split Examples.training_data))
  /\ ~ In (1%nat, [3; 1])
        (TrainModel.X_train (TrainModel.temporal_split Examples.training_data)).
Proof.
  split; [reflexivity|].
  destruct (temporal_split_by_date Examples.training_data 1%nat
              (TrainModel.Row "2025-01-17" true [Some 3; Some 1]) eq_refl)
    as (Htrain & _ & Htest & _).
  split.
  - apply Htest. split; reflexivity.
  - intros H. apply Htrain in H as [_ H]. discriminate.
Defined.

Lemma label_by_name_and_date_example :
  exists out,
    CreateLabeledDataset.create_labeled_dataset Examples.feature_rows
      Examples.labels !! 1%nat = Some out
    /\ CreateLabeledDataset.injured out = true
    /\ CreateLabeledDataset.risk_level out = "injured".
Proof.
  destruct (label_by_name_and_date Examples.feature_rows Examples.labels 1%nat _
              eq_refl) as (out & Hout & _ & Hinj & Hrisk & _).
  assert (Hpresent :
            exists inj, In inj Examples.labels
              /\ CreateLabeledDataset.athlete_name inj = "Bo Chen"
              /\ CreateLabeledDataset.injury_date inj = "2025-01-09").
  { exists (CreateLabeledDataset.Injury "Bo Chen" "2025-01-09").
    simpl. auto. }
  exists out. split; [exact Hout|]. split; [now apply Hinj | now apply Hrisk].
Defined.

Lemma update_touches_only_unknown_example :
  Examples.injury_dates !! 1%nat
    = Some (AutoDetectInjuries.InjuryRow "2025-01-09" "Bo Chen"
              (Some "seen by physio") [])
  /\ AutoDetectInjuries.update_injury_dates_csv Examples.injury_dates
       Examples.detections !! 1%nat
     = Some (AutoDetectInjuries.InjuryRow "2025-01-09" "Bo Chen"
               (Some "seen by physio") []).
Proof.
  split; [reflexivity|].
  apply (proj2 (update_touches_only_unknown Examples.injury_dates
                  Examples.detections) 1%nat); reflexivity.
Defined.

End WorkedExamples.

(** * Further properties of the scripts *)

(** ** [rolling_window_features.py]: the rows of a session *)

Section RollingRows.
Import RollingWindowFeatures.
Local Open Scope Q_scope.


Lemma window_loop_sublist df total d id nm act (ws : list Q) :
  sublist (map (fun r => window_minutes (feats r))
             (window_loop df total d id nm act ws)) ws.
Proof.
  induction ws as [|w ws IH]; simpl; [constructor|].
  destruct (exceeds w total); [apply sublist_nil_l|].
  destruct (mask_sum df w <? 100)%nat; [now constructor|].
  destruct (calculate_window_features df 0 (mask_sum df w) w) as [f|] eqn:Ef;
    [|now constructor].
  simpl. destruct (calculate_window_features_shape _ _ _ _ _ Ef) as [-> _].
  now constructor.
Qed.


Lemma mask_sum_mono (df : list frame_row) (w w' : Q) :
  w <= w' -> (mask_sum df w <= mask_sum df w')%nat.
Proof.
  intros Hle. unfold mask_sum. induction df as [|r df IH]; simpl; [lia|].
  destruct (Qle_bool (minutes_from_start r) w) eqn:E.
  - apply Qle_bool_iff in E.
    assert (E' : Qle_bool (minutes_from_start r) w' = true)
      by (apply Qle_bool_iff; eapply Qle_trans; eassumption).
    rewrite E'. simpl. lia.
  - destruct (Qle_bool (minutes_from_start r) w'); simpl; lia.
Qed.

Lemma create_rolling_features_inv (json_file : session_file)
    (window_intervals : list Q) (rows : list rolling_row) :
  create_rolling_features json_file window_intervals = Py.Ok (Some rows) ->
  exists samples id nm d x act,
    load_session_data (content json_file) = Py.Ok (Some (samples, id, nm))
    /\ Py.split "_" (Py.remove_all ".json" (name json_file)) = [d; x; act]
    /\ rows = window_loop (frame samples) (total_duration (frame samples))
                d id nm act window_intervals.
Proof.
  unfold create_rolling_features.
  destruct (load_session_data (content json_file)) as [[[[samples id] nm]|]|];
    try discriminate.
  destruct (Py.split _ _) as [|d [|x [|act [|? ?]]]]; try discriminate.
  intros E. inversion E. eauto 10.
Qed.


(** X2.  The cutoffs of the returned rows, in order, form a subsequence of
    [window_intervals]: rows come in the order of the cutoffs, and when the
    cutoffs are pairwise distinct no two rows of a session share their
    [window_minutes]. *)
Theorem rolling_rows_follow_cutoffs (json_file : session_file)
    (window_intervals : list Q) (rows : list rolling_row) :
  create_rolling_features json_file window_intervals = Py.Ok (Some rows) ->
  sublist (map (fun r => window_minutes (feats r)) rows) window_intervals
  /\ (NoDup window_intervals ->
      NoDup (map (fun r => window_minutes (feats r)) rows)).
Proof.
  intros Hrows.
  apply create_rolling_features_inv in Hrows
    as (samples & id & nm & d & x & act & _ & _ & ->).
  pose proof (window_loop_sublist (frame samples) (total_duration (frame samples))
                d id nm act window_intervals) as Hsub.
  split; [exact Hsub|]. intros Hnd. eapply sublist_NoDup; eassumption.
Qed.

(** X3.  Within one session a later cutoff never sees fewer samples: of two
    returned rows, the one with the larger [window_minutes] has at least as
    many [data_points]. *)
Theorem rolling_rows_grow (json_file : session_file)
    (window_intervals : list Q) (rows : list rolling_row)
    (r1 r2 : rolling_row) :
  create_rolling_features json_file window_intervals = Py.Ok (Some rows) ->
  In r1 rows -> In r2 rows ->
  window_minutes (feats r1) <= window_minutes (feats r2) ->
  (data_points (feats r1) <= data_points (feats r2))%nat.
Proof.
  intros Hrows H1 H2 Hle.
  apply create_rolling_features_inv in Hrows
    as (samples & id & nm & d & x & act & _ & _ & ->).
  apply window_loop_rows in H1 as (w1 & _ & _ & _ & _ & E1 & ->).
  apply window_loop_rows in H2 as (w2 & _ & _ & _ & _ & E2 & ->).
  rewrite E1, E2 in Hle. now apply mask_sum_mono.
Qed.


End RollingRows.

(** ** [rolling_window_features.py]: windows, durations and the batch loop *)

Section RollingWindows.
Import RollingWindowFeatures.
Local Open Scope Q_scope.

Lemma iloc_length {A} (l : list A) (start stop : nat) :
  length (Pandas.iloc start stop l) = Nat.min (stop - start) (length l - start).
Proof.
  unfold Pandas.iloc. now rewrite List.length_firstn, List.length_skipn.
Qed.

(** X5.  [calculate_window_features] returns [None] exactly when the slice
    [start_idx:end_idx] of the frame is empty; otherwise its [data_points] is
    the length of that slice, cut off at the end of the frame. *)
Theorem window_features_defined
    (df : list frame_row) (start_idx end_idx : nat) (w : Q) :
  (calculate_window_features df start_idx end_idx w = None
   <-> (end_idx <= start_idx \/ length df <= start_idx)%nat)
  /\ (forall f, calculate_window_features df start_idx end_idx w = Some f ->
        data_points f = Nat.min (end_idx - start_idx) (length df - start_idx)).
Proof.
  split.
  - pose proof (iloc_length df start_idx end_idx) as Hlen.
    unfold calculate_window_features.
    destruct (Pandas.iloc start_idx end_idx df) as [|r0 window]; simpl in Hlen.
    + split; [intros _; lia | reflexivity].
    + split; [discriminate | lia].
  - intros f Hf.
    destruct (calculate_window_features_shape _ _ _ _ _ Hf) as [_ ->].
    apply iloc_length.
Qed.

Lemma tail_all {A} (l : list A) (n : nat) :
  (length l <= n)%nat -> Pandas.tail n l = l.
Proof.
  intros Hn. unfold Pandas.tail.
  replace (length l - n)%nat with 0%nat by lia. apply List.skipn_O.
Qed.

(** X6.  While a window holds at most 1200 samples, its "recent intensity"
    features are the whole-window ones: [recent_avg_velocity] is
    [avg_velocity] and [recent_max_acceleration] is [max_acceleration]. *)
Theorem recent_is_whole_window
    (df : list frame_row) (start_idx end_idx : nat) (w : Q) (f : features) :
  calculate_window_features df start_idx end_idx w = Some f ->
  (data_points f <= 1200)%nat ->
  recent_avg_velocity f = avg_velocity f
  /\ recent_max_acceleration f = max_acceleration f.
Proof.
  unfold calculate_window_features.
  destruct (Pandas.iloc start_idx end_idx df) as [|r0 window]; [discriminate|].
  intros E. apply (inj Some) in E. subst f.
  cbn [recent_avg_velocity avg_velocity recent_max_acceleration
       max_acceleration data_points].
  intros Hn. unfold col.
  rewrite !tail_all by (rewrite length_map; exact Hn). auto.
Qed.

(** X7.  The total duration of a session with samples is defined and never
    negative, whatever the order of the timestamps: the first sample is at
    elapsed minute 0, and every sample is within the total duration. *)
Theorem total_duration_nonneg (samples : list sample) :
  samples <> [] ->
  exists t, total_duration (frame samples) = Some t
            /\ 0 <= t
            /\ forall r, In r (frame samples) -> minutes_from_start r <= t.
Proof.
  intros Hne. destruct samples as [|s0 rest]; [contradiction|].
  destruct (total_duration (frame (s0 :: rest))) as [t|] eqn:Et;
    [|discriminate].
  exists t. split; [reflexivity|].
  pose proof (total_duration_bounds _ _ Et) as Hall.
  rewrite List.Forall_forall in Hall. split; [|exact Hall].
  assert (H0 : minutes_from_start (add_elapsed (ts s0) s0) <= t)
    by (apply Hall; simpl; auto).
  simpl in H0. eapply Qle_trans; [|exact H0].
  unfold Qminus. rewrite Qplus_opp_r. unfold Qdiv. rewrite Qmult_0_l.
  apply Qle_refl.
Qed.


Lemma process_step_effect (ws : list Q) (st : tally) (f : session_file) :
  let out := process_step ws st f in
  let made := negb (length (rows_of ws f) =? 0)%nat in
  all_features out = (all_features st ++ rows_of ws f)%list
  /\ processed out = (processed st + if made then 1 else 0)%nat
  /\ (processed out + skipped out = processed st + skipped st + 1)%nat.
Proof.
  unfold process_step, rows_of.
  destruct (create_rolling_features f ws) as [[[|r rs]|]|]; simpl;
    rewrite ?app_nil_r; repeat split; lia.
Qed.

Lemma process_fold (ws : list Q) (files : list session_file) (st : tally) :
  let out := fold_left (process_step ws) files st in
  all_features out = (all_features st ++ flat_map (rows_of ws) files)%list
  /\ processed out
     = (processed st
        + length (List.filter (fun f => negb (length (rows_of ws f) =? 0)%nat) files))%nat
  /\ (processed out + skipped out
      = processed st + skipped st + length files)%nat.
Proof.
  revert st. induction files as [|f files IH]; intros st; simpl.
  - rewrite app_nil_r. repeat split; lia.
  - destruct (IH (process_step ws st f)) as (Hrows & Hproc & Hsum).
    destruct (process_step_effect ws st f) as (Srows & Sproc & Ssum).
    split; [|split].
    + rewrite Hrows, Srows. now rewrite <- app_assoc.
    + rewrite Hproc, Sproc.
      destruct (negb (length (rows_of ws f) =? 0)%nat); simpl; lia.
    + lia.
Qed.

(** X8.  [process_all_sessions] counts every file once, as processed or as
    skipped; the processed files are exactly those with at least one row, so
    a file that raises, has no samples or reaches no window is skipped; and
    the dataset is the concatenation, in file order, of the files' rows. *)
Theorem process_all_sessions_accounting
    (json_files : list session_file) (window_intervals : list Q) :
  let out := process_all_sessions json_files window_intervals in
  all_features out = flat_map (rows_of window_intervals) json_files
  /\ processed out
     = length (List.filter
                 (fun f => negb (length (rows_of window_intervals f) =? 0)%nat)
                 json_files)
  /\ (processed out + skipped out = length json_files)%nat.
Proof.
  unfold process_all_sessions.
  destruct (process_fold window_intervals json_files
              {| all_features := []; processed := 0; skipped := 0 |})
    as (Hrows & Hproc & Hsum).
  simpl in *. auto.
Qed.

End RollingWindows.

(** ** [auto_detect_injuries.py]: what a day's detection reports *)

Section DayDetection.
Import AutoDetectInjuries.
Local Open Scope Q_scope.

Lemma judge_at_most_one (avg : option Q) (s : session) :
  (length (judge avg s) <= 1)%nat.
Proof. unfold judge. case_branches; simpl; lia. Qed.

Lemma judge_identity (avg : option Q) (s : session) (d : detected) :
  In d (judge avg s) ->
  det_athlete_name d = athlete_name s /\ det_athlete_id d = athlete_id s.
Proof.
  unfold judge. case_branches; simpl; intros H;
    repeat (destruct H as [<- | H]; [auto|]); destruct H.
Qed.

Lemma flat_map_at_most_one {A B} (f : A -> list B) (l : list A) :
  (forall x, length (f x) <= 1)%nat -> (length (flat_map f l) <= length l)%nat.
Proof.
  intros Hf. induction l as [|x l IH]; simpl; [lia|].
  rewrite length_app. specialize (Hf x). lia.
Qed.

Lemma on_date_In (df : list session) (target : string) (s : session) :
  In s (on_date df target) <-> In s df /\ date s = target.
Proof.
  unfold on_date. rewrite List.filter_In, String.eqb_eq. reflexivity.
Qed.

Lemma detect_unfold (df : list session) (target : string) :
  detect_injuries_on_date df target
  = flat_map (judge (Pandas.mean (map duration_minutes (on_date df target))))
      (on_date df target).
Proof.
  unfold detect_injuries_on_date.
  destruct (on_date df target); reflexivity.
Qed.

(** X9.  [detect_injuries_on_date] reports at most one entry per session of
    the target date, every entry names a session of that date, and every
    session of that date with fewer than 1000 data points is reported: as
    'NO DATA' with zeroed counts when it has none, as 'MINIMAL DATA' with its
    own counts otherwise. *)
Theorem detection_covers_day (df : list session) (target_date : string) :
  let out := detect_injuries_on_date df target_date in
  (length out <= length (on_date df target_date))%nat
  /\ (forall d, In d out ->
        exists s, In s df /\ date s = target_date
                  /\ det_athlete_name d = athlete_name s
                  /\ det_athlete_id d = athlete_id s)
  /\ (forall s, In s df -> date s = target_date ->
        (data_points s = 0)%Z ->
        In {| det_athlete_name := athlete_name s;
              det_athlete_id := athlete_id s; reason := "NO DATA";
              det_data_points := 0; det_duration_minutes := 0 |} out)
  /\ (forall s, In s df -> date s = target_date ->
        (data_points s <> 0)%Z -> (data_points s < 1000)%Z ->
        In {| det_athlete_name := athlete_name s;
              det_athlete_id := athlete_id s; reason := "MINIMAL DATA";
              det_data_points := data_points s;
              det_duration_minutes := duration_minutes s |} out).
Proof.
  intros out. subst out. rewrite detect_unfold.
  split; [apply flat_map_at_most_one, judge_at_most_one|]. split; [|split].
  - intros d Hd. apply in_flat_map in Hd as (s & Hs & Hd).
    apply on_date_In in Hs as [Hs Hdate]. apply judge_identity in Hd.
    exists s. tauto.
  - intros s Hs Hdate H0. apply in_flat_map. exists s.
    split; [now apply on_date_In|].
    unfold judge. rewrite H0. simpl. auto.
  - intros s Hs Hdate H0 H1. apply in_flat_map. exists s.
    split; [now apply on_date_In|].
    unfold judge. apply Z.eqb_neq in H0. apply Z.ltb_lt in H1.
    rewrite H0, H1. simpl. auto.
Qed.


End DayDetection.

(** ** [auto_detect_injuries.py]: what the update writes *)

Section UpdateEffect.
Import AutoDetectInjuries.

Lemma iterrows_split {A} (l : list A) (n idx : nat) (row : A) :
  l !! idx = Some row ->
  exists before after,
    combine (seq n (length l)) l = (before ++ (n + idx, row) :: after)%list
    /\ (forall it, In it (before ++ after)%list -> fst it <> n + idx).
Proof.
  revert n idx. induction l as [|x l IH]; intros n idx; [discriminate|].
  destruct idx as [|idx]; simpl.
  - intros [= ->]. exists [], (combine (seq (S n) (length l)) l).
    rewrite Nat.add_0_r. split; [reflexivity|].
    intros [j y] Hin. simpl in *. apply iterrows_from in Hin. lia.
  - intros Hrow. destruct (IH (S n) idx Hrow) as (before & after & E & Hne).
    exists ((n, x) :: before), after.
    rewrite E. replace (S n + idx) with (n + S idx) in * by lia.
    split; [reflexivity|].
    intros it [<- | Hin]; [simpl; lia | now apply Hne].
Qed.

(** When the iteration of a row rewrites it by [g], whatever the state, the
    saved frame holds [g] of the row at its index. *)
Lemma update_own_row det (df : list injury_row) (idx : nat) (row : injury_row)
    (g : injury_row -> injury_row) :
  df !! idx = Some row ->
  (forall st, fst (update_step det st (idx, row)) !! idx = g <$> fst st !! idx) ->
  update_injury_dates_csv df det !! idx = Some (g row).
Proof.
  intros Hrow Hg. unfold update_injury_dates_csv, update_loop, iterrows.
  destruct (iterrows_split df 0 idx row Hrow) as (before & after & E & Hne).
  simpl in E. rewrite E, fold_left_app. simpl.
  rewrite update_fold_frame
    by (intros it Hin Hidx; exfalso; apply (Hne it); [apply in_or_app; auto | exact Hidx]).
  rewrite Hg.
  rewrite update_fold_frame
    by (intros it Hin Hidx; exfalso; apply (Hne it); [apply in_or_app; auto | exact Hidx]).
  simpl. now rewrite Hrow.
Qed.

Lemma set_at_own (idx : nat) d note st :
  fst (set_at idx d note st) !! idx
  = assign (det_athlete_name d) note <$> fst st !! idx.
Proof. simpl. rewrite list_lookup_alter. now rewrite decide_True. Qed.

Lemma fmap_id_lookup (o : option injury_row) : o = (fun r => r) <$> o.
Proof. now destruct o. Qed.

(** X11.  What [update_injury_dates_csv] writes into a row whose name
    contains 'Unknown', by the detections of the row's date: nothing when
    there are none; the athlete and reason of the only detection; with
    several detections, those of the first when the name contains 'A', else
    those of the second when it contains 'B', else those of the first with a
    warning that counts the detections. *)
Theorem update_fills_unknown_row
    (df_injuries : list injury_row)
    (detected_injuries : gmap string (list detected))
    (idx : nat) (row : injury_row) :
  df_injuries !! idx = Some row ->
  Py.str_in "Unknown" (inj_athlete_name row) = true ->
  let date_injuries := default [] (detected_injuries !! injury_date row) in
  let saved := update_injury_dates_csv df_injuries detected_injuries !! idx in
  (date_injuries = [] -> saved = Some row)
  /\ (forall d, date_injuries = [d] ->
        saved = Some (assign (det_athlete_name d) (reason d) row))
  /\ (forall d1 d2 rest, date_injuries = d1 :: d2 :: rest ->
        (Py.str_in "A" (inj_athlete_name row) = true ->
         saved = Some (assign (det_athlete_name d1) (reason d1) row))
        /\ (Py.str_in "A" (inj_athlete_name row) = false ->
            Py.str_in "B" (inj_athlete_name row) = true ->
            saved = Some (assign (det_athlete_name d2) (reason d2) row))
        /\ (Py.str_in "A" (inj_athlete_name row) = false ->
            Py.str_in "B" (inj_athlete_name row) = false ->
            saved = Some (assign (det_athlete_name d1)
                            (reason d1 ++ " (WARNING: "
                               ++ Py.str_of_nat (length date_injuries)
                               ++ " injuries detected on this date)") row))).
Proof.
  intros Hrow HU date_injuries saved. subst saved date_injuries.
  split; [|split].
  - intros E. apply (update_own_row _ _ _ _ (fun r => r) Hrow).
    intros st. unfold update_step. simpl. rewrite HU, E. simpl.
    apply fmap_id_lookup.
  - intros d E. apply (update_own_row _ _ _ _ _ Hrow).
    intros st. unfold update_step. simpl. rewrite HU, E. simpl.
    apply set_at_own.
  - intros d1 d2 rest E. split; [|split].
    + intros HA. apply (update_own_row _ _ _ _ _ Hrow).
      intros st. unfold update_step. simpl. rewrite HU, E, HA. simpl.
      apply set_at_own.
    + intros HA HB. apply (update_own_row _ _ _ _ _ Hrow).
      intros st. unfold update_step. simpl. rewrite HU, E, HA, HB. simpl.
      apply set_at_own.
    + intros HA HB. apply (update_own_row _ _ _ _ _ Hrow).
      intros st. unfold update_step. simpl. rewrite HU, E, HA, HB. simpl.
      apply set_at_own.
Qed.

End UpdateEffect.

(** ** [auto_detect_injuries.py]: the count of updates and [main] *)

Section AutoDetectMain.
Import AutoDetectInjuries.

Lemma update_step_count det st (it : nat * injury_row) :
  snd (update_step det st it)
  = (snd st
     + if Py.str_in "Unknown" (inj_athlete_name (snd it))
          && negb (length (default [] (det !! injury_date (snd it))) =? 0)%nat
       then 1 else 0)%nat.
Proof.
  unfold update_step.
  destruct (Py.str_in "Unknown" (inj_athlete_name (snd it))) eqn:HU; simpl;
    [|lia].
  destruct (default [] (det !! injury_date (snd it))) as [|d1 [|d2 rest]];
    simpl; [lia | lia |].
  destruct (Py.str_in "A" _); simpl; [lia|].
  destruct (Py.str_in "B" _); simpl; lia.
Qed.

Lemma update_fold_count det (its : list (nat * injury_row)) st :
  snd (fold_left (update_step det) its st)
  = (snd st
     + length (List.filter
                 (fun r => Py.str_in "Unknown" (inj_athlete_name r)
                           && negb (length (default [] (det !! injury_date r)) =? 0)%nat)
                 (map snd its)))%nat.
Proof.
  revert st. induction its as [|it its IH]; intros st; simpl; [lia|].
  rewrite IH, update_step_count.
  destruct (Py.str_in "Unknown" _ && _); simpl; lia.
Qed.

Lemma iterrows_rows {A} (l : list A) (n : nat) :
  map snd (combine (seq n (length l)) l) = l.
Proof.
  revert n. induction l as [|x l IH]; intros n; simpl; [reflexivity|].
  now rewrite IH.
Qed.

(** X12.  The number of updates [update_injury_dates_csv] reports is the
    number of rows whose name contains 'Unknown' and whose date has at least
    one detection: each such row is updated, and no other. *)
Theorem updated_count_exactly
    (df_injuries : list injury_row)
    (detected_injuries : gmap string (list detected)) :
  snd (update_loop detected_injuries df_injuries)
  = length (List.filter
              (fun r => Py.str_in "Unknown" (inj_athlete_name r)
                        && negb (length (default []
                                   (detected_injuries !! injury_date r)) =? 0)%nat)
              df_injuries).
Proof.
  unfold update_loop, iterrows.
  rewrite update_fold_count, iterrows_rows. reflexivity.
Qed.

Lemma insert_str_perm (x : string) (l : list string) :
  Permutation (Py.insert_str x l) (x :: l).
Proof.
  induction l as [|y l IH]; simpl; [reflexivity|].
  destruct (String.ltb y x); [|reflexivity].
  rewrite IH. apply perm_swap.
Qed.

Lemma sorted_perm (l : list string) : Permutation (Py.sorted l) l.
Proof.
  induction l as [|x l IH]; simpl; [reflexivity|].
  rewrite insert_str_perm. now apply perm_skip.
Qed.

Lemma sorted_In (l : list string) (x : string) : In x (Py.sorted l) <-> In x l.
Proof.
  split; apply Permutation_in; [|symmetry]; apply sorted_perm.
Qed.

Lemma unique_In (l : list string) (x : string) :
  In x (Pandas.unique l) <-> In x l.
Proof.
  induction l as [|y l IH]; simpl; [reflexivity|].
  rewrite List.filter_In, IH, negb_true_iff, String.eqb_neq.
  destruct (String.eqb_spec y x) as [-> | Hne]; [tauto|].
  intuition congruence.
Qed.

Lemma all_detected_fold (df : list session) (dates : list string)
    (all : gmap string (list detected)) (d : string) :
  fold_left
    (fun all injury_date =>
       match detect_injuries_on_date df injury_date with
       | [] => all
       | detected => <[ injury_date := detected ]> all
       end) dates all !! d
  = match detect_injuries_on_date df d with
    | [] => all !! d
    | detected => if decide (d ∈ dates) then Some detected else all !! d
    end.
Proof.
  revert all. induction dates as [|x dates IH]; intros all; cbn [fold_left].
  - destruct (detect_injuries_on_date df d); [reflexivity|].
    rewrite decide_False; [reflexivity | apply not_elem_of_nil].
  - rewrite IH. destruct (detect_injuries_on_date df d) as [|e es] eqn:Ed.
    + destruct (detect_injuries_on_date df x) as [|e' es'] eqn:Ex;
        [reflexivity|].
      rewrite lookup_insert_ne; [reflexivity|]. intros ->. congruence.
    + destruct (decide (d ∈ dates)) as [Hin | Hout].
      * rewrite decide_True; [reflexivity | now apply elem_of_cons; right].
      * destruct (decide (x = d)) as [-> | Hne].
        -- rewrite decide_True by (apply elem_of_cons; now left).
           rewrite Ed. now rewrite lookup_insert_eq.
        -- rewrite decide_False
             by (rewrite elem_of_cons; intros [-> | H]; [now apply Hne | now apply Hout]).
           destruct (detect_injuries_on_date df x); [reflexivity|].
           now rewrite lookup_insert_ne.
Qed.

(** The dictionary of [main] holds, for every date of the injury table,
    the detections of that date when there are any. *)
Lemma all_detected_lookup (df : list session) (df_injuries : list injury_row)
    (row : injury_row) :
  In row df_injuries ->
  default [] (all_detected df (Pandas.unique (map injury_date df_injuries))
                !! injury_date row)
  = detect_injuries_on_date df (injury_date row).
Proof.
  intros Hrow. unfold all_detected. rewrite all_detected_fold.
  destruct (detect_injuries_on_date df (injury_date row)) as [|e es];
    [now rewrite lookup_empty|].
  rewrite decide_True; [reflexivity|].
  apply list_elem_of_In, sorted_In, unique_In, in_map, Hrow.
Qed.

(** X13.  [main] leaves [injury_dates.csv] alone exactly when no date of the
    injury table has a detection; otherwise it saves a frame with the same
    number of rows. *)
Theorem main_writes_when_detected
    (df : list session) (df_injuries : list injury_row) :
  (main df df_injuries = None
   <-> forall row, In row df_injuries ->
         detect_injuries_on_date df (injury_date row) = [])
  /\ (forall saved, main df df_injuries = Some saved ->
        length saved = length df_injuries).
Proof.
  unfold main. split.
  - destruct (decide (all_detected df _ = ∅)) as [E | Hne].
    + split; [|reflexivity]. intros _ row Hrow.
      rewrite <- (all_detected_lookup df df_injuries row Hrow), E.
      now rewrite lookup_empty.
    + split; [discriminate|]. intros Hnone. exfalso. apply Hne.
      apply map_empty. intros d. unfold all_detected.
      rewrite all_detected_fold, lookup_empty.
      destruct (detect_injuries_on_date df d) as [|e es] eqn:Ed; [reflexivity|].
      destruct (decide _) as [Hin | _]; [|reflexivity].
      apply list_elem_of_In, sorted_In, unique_In, in_map_iff in Hin
        as (row & <- & Hrow).
      rewrite (Hnone row Hrow) in Ed. discriminate.
  - intros saved. destruct (decide _); [discriminate|].
    intros [= <-]. unfold update_injury_dates_csv, update_loop.
    apply update_fold_length.
Qed.

(** X14.  Detection and update composed: when exactly one session of a
    placeholder row's date is suspicious, [main] saves a frame in which that
    row carries the session's athlete name, with the reason as its notes. *)
Theorem main_names_single_suspect
    (df : list session) (df_injuries : list injury_row)
    (idx : nat) (row : injury_row) (d : detected) :
  df_injuries !! idx = Some row ->
  Py.str_in "Unknown" (inj_athlete_name row) = true ->
  detect_injuries_on_date df (injury_date row) = [d] ->
  exists saved,
    main df df_injuries = Some saved
    /\ saved !! idx = Some (assign (det_athlete_name d) (reason d) row).
Proof.
  intros Hrow HU Hd.
  assert (Hin : In row df_injuries)
    by (apply list_elem_of_In, list_elem_of_lookup; eauto).
  pose proof (all_detected_lookup df df_injuries row Hin) as Hlook.
  rewrite Hd in Hlook. unfold main.
  destruct (decide (all_detected df _ = ∅)) as [E | _].
  - rewrite E, lookup_empty in Hlook. discriminate.
  - eexists. split; [reflexivity|].
    apply (update_own_row _ _ _ _ _ Hrow).
    intros st. unfold update_step. simpl. rewrite HU, Hlook. simpl.
    apply set_at_own.
Qed.

End AutoDetectMain.

(** ** [detect_injuries.py]: the sessions read and their grouping *)

Section SessionsRead.
Import DetectInjuries.
Local Open Scope Q_scope.

Lemma dict_append_keys {V} (k : string) (x : V) (d : list (string * list V)) :
  map fst (dict_append k x d)
  = if decide (k ∈ map fst d) then map fst d else (map fst d ++ [k])%list.
Proof.
  induction d as [|[k' xs] d IH]; simpl; [reflexivity|].
  destruct (String.eqb_spec k' k) as [-> | Hne]; simpl.
  - rewrite decide_True; [reflexivity | apply elem_of_cons; now left].
  - rewrite IH. destruct (decide (k ∈ map fst d)) as [Hin | Hout].
    + rewrite decide_True; [reflexivity | apply elem_of_cons; now right].
    + rewrite decide_False; [reflexivity|].
      rewrite elem_of_cons. intros [-> | H]; [now apply Hne | now apply Hout].
Qed.

Lemma dict_append_values {V} (k : string) (x : V) (d : list (string * list V)) :
  Permutation (flat_map snd (dict_append k x d)) (x :: flat_map snd d).
Proof.
  induction d as [|[k' xs] d IH]; simpl; [reflexivity|].
  destruct (String.eqb k' k); simpl.
  - rewrite <- app_assoc. simpl.
    symmetry. apply Permutation_middle.
  - rewrite IH. symmetry. apply Permutation_middle.
Qed.

Lemma dict_append_In {V} (k : string) (x : V) (d : list (string * list V))
    (k' : string) (xs : list V) (y : V) :
  In (k', xs) (dict_append k x d) -> In y xs ->
  (k' = k /\ y = x) \/ exists xs', In (k', xs') d /\ In y xs'.
Proof.
  induction d as [|[k0 xs0] d IH]; simpl.
  - intros [[= <- <-] | []] [<- | []]. auto.
  - destruct (String.eqb_spec k0 k) as [-> | Hne]; simpl.
    + intros [[= <- <-] | Hin] Hy.
      * apply in_app_or in Hy as [Hy | [<- | []]]; eauto.
      * eauto.
    + intros [[= <- <-] | Hin] Hy; [eauto|].
      destruct (IH Hin Hy) as [? | (xs' & ? & ?)]; eauto.
Qed.

Lemma pass1_step_sessions (st : pass1) (f : file) :
  athlete_sessions (pass1_step st f)
  = match read_session f with
    | Some s => dict_append (athlete_id s) s (athlete_sessions st)
    | None => athlete_sessions st
    end.
Proof. unfold pass1_step. now destruct (read_session f). Qed.

(** The sessions the first loop reads, in file order. *)
Lemma first_pass_groups (files : list file) (st : pass1) :
  let out := fold_left pass1_step files st in
  (NoDup (map fst (athlete_sessions st)) ->
   NoDup (map fst (athlete_sessions out)))
  /\ Permutation (flat_map snd (athlete_sessions out))
       (flat_map snd (athlete_sessions st) ++ omap read_session files)
  /\ (forall k ss s, In (k, ss) (athlete_sessions out) -> In s ss ->
        (exists ss', In (k, ss') (athlete_sessions st) /\ In s ss')
        \/ (athlete_id s = k /\ In s (omap read_session files))).
Proof.
  revert st. induction files as [|f files IH]; intros st; simpl.
  - rewrite app_nil_r. repeat split; eauto.
  - destruct (IH (pass1_step st f)) as (Hnd & Hperm & Hgrp). clear IH.
    rewrite pass1_step_sessions in Hnd, Hperm, Hgrp.
    destruct (read_session f) as [s0|]; [|auto].
    split; [|split].
    + intros H. apply Hnd. rewrite dict_append_keys.
      destruct (decide _) as [|Hout]; [exact H|].
      apply NoDup_app. repeat split; [exact H | | apply NoDup_singleton].
      intros k Hk Hk'. apply list_elem_of_singleton in Hk'. now subst.
    + rewrite Hperm, dict_append_values. simpl.
      apply Permutation_middle.
    + intros k ss s Hin Hs.
      destruct (Hgrp k ss s Hin Hs) as [(ss' & Hin' & Hs') | [E Hr]].
      * destruct (dict_append_In _ _ _ _ _ _ Hin' Hs') as [[-> ->] | ?];
          [right; simpl; auto | auto].
      * right. simpl. auto.
Qed.

(** X15.  After the first loop, [athlete_sessions] groups the sessions read
    by athlete id: its keys are pairwise distinct, every session listed under
    a key has that athlete id, and the sessions listed are, up to order,
    exactly the sessions read from the files, each as often as it was read. *)
Theorem athlete_sessions_grouped (files : list file) :
  let groups := athlete_sessions (first_pass files) in
  NoDup (map fst groups)
  /\ (forall k ss s, In (k, ss) groups -> In s ss -> athlete_id s = k)
  /\ Permutation (flat_map snd groups) (omap read_session files).
Proof.
  destruct (first_pass_groups files
              {| athlete_sessions := []; injured_candidates := [];
                 session_durations := ∅ |}) as (Hnd & Hperm & Hgrp).
  split; [apply Hnd; constructor|]. split; [|exact Hperm].
  intros k ss s Hin Hs.
  destruct (Hgrp k ss s Hin Hs) as [(ss' & [] & _) | [E _]]. exact E.
Qed.

Lemma first_pass_skip (files : list file) (st : pass1) :
  fold_left pass1_step files st
  = fold_left pass1_step
      (List.filter (fun f => bool_decide (is_Some (read_session f))) files) st.
Proof.
  revert st. induction files as [|f files IH]; intros st; simpl; [reflexivity|].
  destruct (read_session f) as [s|] eqn:E.
  - rewrite bool_decide_eq_true_2 by eauto. simpl. apply IH.
  - rewrite bool_decide_eq_false_2 by (intros [? ?]; discriminate).
    rewrite <- IH. unfold pass1_step at 2. now rewrite E.
Qed.

(** X16.  A file is passed over exactly when its name does not split into
    three parts at '_' or it cannot be loaded, and such files have no effect
    on the result: [analyze_injuries] returns what it returns without them,
    whatever their size. *)
Theorem unreadable_files_ignored (files : list file) :
  (forall f, read_session f = None
             <-> length (Py.split "_" (Py.remove_all ".json" (name f))) <> 3%nat
                 \/ content f = None)
  /\ analyze_injuries files
     = analyze_injuries
         (List.filter (fun f => bool_decide (is_Some (read_session f))) files).
Proof.
  split.
  - intros f. unfold read_session.
    destruct (Py.split _ _) as [|? [|? [|? [|? ?]]]]; simpl;
      try (split; [intros _; left; lia | reflexivity]).
    destruct (content f); split; try discriminate; try reflexivity; auto.
    intros [H | H]; [lia | discriminate].
  - unfold analyze_injuries, all_candidates, first_pass.
    now rewrite <- first_pass_skip.
Qed.

End SessionsRead.

(** ** [detect_injuries.py]: the early-termination pass and the report *)

Section EarlyTermination.
Import DetectInjuries.
Local Open Scope Q_scope.




Lemma flag_suspect (s : session_info) (c : candidate) :
  In c (flag s) ->
  info c = s /\ avg_duration c = None
  /\ (file_size s < 1000 \/ data_points s < 100)%nat.
Proof.
  unfold flag.
  destruct (Nat.ltb_spec (file_size s) 1000) as [Hs | Hs];
    [|destruct (Nat.ltb_spec (data_points s) 100) as [Hn | Hn]];
    simpl; intros H; [| |destruct H];
    (destruct H as [<- | H]; [auto | destruct H]).
Qed.









End EarlyTermination.

(** ** [process_injury_dates.py]: lookback tables, missing dates, the script *)

Section InjuryDateRanges.
Import ProcessInjuryDates.

Lemma range_down_In (start i : Z) :
  In i (Py.range_down start) <-> (0 <= i <= start)%Z.
Proof.
  unfold Py.range_down. rewrite in_map_iff. split.
  - intros (k & <- & Hk). apply in_seq in Hk. lia.
  - intros Hi. exists (Z.to_nat (start - i)). split; [lia|].
    apply in_seq. lia.
Qed.

Lemma range_down_length (start : Z) :
  length (Py.range_down start) = Z.to_nat (start + 1).
Proof. unfold Py.range_down. now rewrite length_map, length_seq. Qed.

(** X19.  For any lookback: a negative one gives an empty table; otherwise
    every injury record gets one row per day offset from 0 to the lookback,
    dated that many days before the injury, and the tier of a row follows
    its offset alone: 'injury_day' at 0, 'high_risk' from 1 to 3, and
    'moderate_risk' from 4 on, also beyond 7 days. *)
Theorem date_ranges_for_any_lookback
    (injury_df : list injury) (lookback_days : Z) :
  let table := create_date_ranges injury_df lookback_days in
  ((lookback_days < 0)%Z -> table = [])
  /\ length table = (length injury_df * Z.to_nat (lookback_days + 1))%nat
  /\ (forall inj i, In inj injury_df -> (0 <= i <= lookback_days)%Z ->
        exists r, In r table
                  /\ dr_athlete_name r = athlete_name inj
                  /\ dr_injury_date r = injury_date inj
                  /\ days_until_injury r = i)
  /\ (forall r, In r table ->
        (0 <= days_until_injury r <= lookback_days)%Z
        /\ date r = (dr_injury_date r - days_until_injury r)%Z
        /\ (days_until_injury r = 0%Z -> risk_level r = "injury_day")
        /\ ((1 <= days_until_injury r <= 3)%Z -> risk_level r = "high_risk")
        /\ ((4 <= days_until_injury r)%Z -> risk_level r = "moderate_risk")).
Proof.
  intros table. subst table. unfold create_date_ranges.
  split; [|split; [|split]].
  - intros Hneg. unfold Py.range_down.
    replace (Z.to_nat (lookback_days + 1)) with 0%nat by lia. simpl.
    induction injury_df as [|inj df IH]; [reflexivity | exact IH].
  - induction injury_df as [|inj df IH]; [reflexivity|].
    cbn [flat_map length]. rewrite length_app, IH, length_map, range_down_length.
    lia.
  - intros inj i Hinj Hi. exists (range_row inj i). split; [|auto].
    apply in_flat_map. exists inj. split; [exact Hinj|].
    apply in_map, range_down_In, Hi.
  - intros r Hr. apply in_flat_map in Hr as (inj & _ & Hr).
    apply in_map_iff in Hr as (i & <- & Hi). apply range_down_In in Hi.
    unfold range_row, minus_days. simpl.
    split; [exact Hi|]. split; [reflexivity|]. split; [|split].
    + intros ->. reflexivity.
    + intros H13.
      destruct (Z.eqb_spec i 0); [lia|].
      destruct (Z.leb_spec i 3); [reflexivity | lia].
    + intros H4.
      destruct (Z.eqb_spec i 0); [lia|].
      destruct (Z.leb_spec i 3); [lia | reflexivity].
Qed.

Lemma string_ltb_leb (a b : string) :
  String.ltb a b = true -> String.leb a b = true.
Proof.
  unfold String.ltb, String.leb. now destruct (String.compare a b).
Qed.

Lemma string_not_ltb_leb (a b : string) :
  String.ltb a b = false -> String.leb b a = true.
Proof.
  unfold String.ltb, String.leb. rewrite (String.compare_antisym a b).
  now destruct (String.compare b a).
Qed.

Lemma string_leb_neq_ltb (a b : string) :
  String.leb a b = true -> a <> b -> String.ltb a b = true.
Proof.
  unfold String.ltb, String.leb. intros Hle Hne.
  destruct (String.compare a b) eqn:E; try reflexivity; try discriminate.
  apply String.compare_eq_iff in E. contradiction.
Qed.

Lemma insert_str_sorted (x : string) (l : list string) :
  StronglySorted (fun a b => String.leb a b = true) l ->
  StronglySorted (fun a b => String.leb a b = true) (Py.insert_str x l).
Proof.
  induction 1 as [|y l Hl IH Hy]; simpl; [repeat constructor|].
  destruct (String.ltb y x) eqn:E.
  - constructor; [exact IH|].
    apply List.Forall_forall. intros z Hz.
    apply (Permutation_in _ (insert_str_perm x l)) in Hz as [<- | Hz].
    + now apply string_ltb_leb.
    + rewrite List.Forall_forall in Hy. now apply Hy.
  - apply string_not_ltb_leb in E.
    constructor; [now constructor|]. constructor; [exact E|].
    eapply List.Forall_impl; [|exact Hy].
    intros z Hz. eapply string_leb_trans; eassumption.
Qed.

Lemma sorted_sorted (l : list string) :
  StronglySorted (fun a b => String.leb a b = true) (Py.sorted l).
Proof.
  induction l as [|x l IH]; simpl; [constructor | now apply insert_str_sorted].
Qed.

Lemma sorted_strict (l : list string) :
  StronglySorted (fun a b => String.leb a b = true) l -> NoDup l ->
  StronglySorted (fun a b => String.ltb a b = true) l.
Proof.
  induction 1 as [|x l Hl IH Hx]; intros Hnd; [constructor|].
  apply NoDup_cons in Hnd as [Hnotin Hnd].
  constructor; [now apply IH|].
  rewrite List.Forall_forall in *. intros y Hy.
  apply string_leb_neq_ltb; [now apply Hx|].
  intros ->. apply Hnotin. now apply list_elem_of_In.
Qed.

(** X20.  [identify_missing_dates] returns, in strictly ascending order and
    so without repetition, exactly the dates that occur in the date ranges
    and are not among the available dates. *)
Theorem missing_dates_exactly (dates available_dates : list string) :
  let missing := identify_missing_dates dates available_dates in
  StronglySorted (fun a b => String.ltb a b = true) missing
  /\ forall d, In d missing <-> In d dates /\ ~ In d available_dates.
Proof.
  intros missing. subst missing. unfold identify_missing_dates. split.
  - apply sorted_strict; [apply sorted_sorted|].
    rewrite sorted_perm. apply NoDup_elements.
  - intros d. rewrite sorted_In, <- list_elem_of_In, elem_of_elements.
    rewrite elem_of_difference, !elem_of_list_to_set, !list_elem_of_In.
    now rewrite unique_In.
Qed.

Lemma date_lines_filter (missing_dates : list string) :
  List.filter (String.prefix "python3 ")
    (flat_map (fun date =>
                 [ "echo 'Collecting " ++ date ++ "...'";
                   "python3 scripts/data_collector.py --date " ++ date;
                   "" ]) missing_dates)
  = map (fun date => "python3 scripts/data_collector.py --date " ++ date)
      missing_dates.
Proof.
  induction missing_dates as [|d ds IH]; [reflexivity|].
  cbn [flat_map map]. rewrite List.filter_app, IH. reflexivity.
Qed.

(** X21.  [generate_collection_script] writes nothing exactly when there is
    no missing date; otherwise the commands of the script it writes are one
    [data_collector.py] call per missing date, in the order of the list. *)
Theorem script_collects_each_date (missing_dates : list string) :
  (generate_collection_script missing_dates = None <-> missing_dates = [])
  /\ (missing_dates <> [] ->
      generate_collection_script missing_dates
      = Some (String.concat Py.newline (script_lines missing_dates)))
  /\ List.filter (String.prefix "python3 ") (script_lines missing_dates)
     = map (fun date => "python3 scripts/data_collector.py --date " ++ date)
         missing_dates.
Proof.
  split; [|split].
  - destruct missing_dates; simpl; split; try discriminate; reflexivity.
  - destruct missing_dates; [contradiction | reflexivity].
  - unfold script_lines. rewrite !List.filter_app, date_lines_filter.
    simpl. now rewrite app_nil_r.
Qed.

End InjuryDateRanges.

(** ** [train_model.py] and [create_labeled_dataset.py] *)

Section SplitAndLabels.

Lemma select_labels {A B} (f : A -> B) (l : list A) (mask : list bool) (n : nat) :
  map fst (TrainModel.select n (map f l) mask)
  = map fst (TrainModel.select n l mask).
Proof.
  revert mask n. induction l as [|x l IH]; intros [|b mask] n; simpl;
    try reflexivity.
  destruct b; simpl; now rewrite IH.
Qed.

Lemma select_ascending {A} (l : list A) (mask : list bool) (n : nat) :
  StronglySorted lt (map fst (TrainModel.select n l mask))
  /\ List.Forall (fun i => n <= i) (map fst (TrainModel.select n l mask)).
Proof.
  revert mask n. induction l as [|x l IH]; intros [|b mask] n; simpl;
    try (split; constructor).
  destruct (IH mask (S n)) as [Hs Hf].
  assert (Hf' : List.Forall (fun i => n <= i)
                  (map fst (TrainModel.select (S n) l mask)))
    by (eapply List.Forall_impl; [|exact Hf]; simpl; intros; lia).
  destruct b; simpl; [|auto].
  split; [constructor; [exact Hs|] | constructor; [lia | exact Hf']].
  eapply List.Forall_impl; [|exact Hf]. simpl. intros. lia.
Qed.

Lemma select_disjoint {A} (l : list A) (m1 m2 : list bool) (n : nat) :
  List.Forall2 (fun b1 b2 => b1 && b2 = false) m1 m2 ->
  length (TrainModel.select n l m1) + length (TrainModel.select n l m2)
  <= length l.
Proof.
  intros H. revert l n. induction H as [|b1 b2 m1 m2 Hb _ IH]; intros l n.
  - destruct l; simpl; lia.
  - destruct l as [|x l]; simpl; [lia|]. specialize (IH l (S n)).
    destruct b1, b2; simpl in *; try discriminate; lia.
Qed.

(** X22.  In the temporal split the features and the labels of a partition
    carry the same index labels in the same, ascending order, so they stay
    aligned row by row; and the two partitions together hold no more rows
    than the frame. *)
Theorem split_keeps_alignment (df : list TrainModel.row) :
  let s := TrainModel.temporal_split df in
  map fst (TrainModel.X_train s) = map fst (TrainModel.y_train s)
  /\ map fst (TrainModel.X_test s) = map fst (TrainModel.y_test s)
  /\ StronglySorted lt (map fst (TrainModel.X_train s))
  /\ StronglySorted lt (map fst (TrainModel.X_test s))
  /\ length (TrainModel.X_train s) + length (TrainModel.X_test s) <= length df.
Proof.
  unfold TrainModel.temporal_split. cbn [TrainModel.X_train TrainModel.X_test
    TrainModel.y_train TrainModel.y_test].
  rewrite !select_labels. repeat split; try apply select_ascending.
  rewrite <- !(length_map fst), !select_labels, !length_map.
  apply select_disjoint.
  induction df as [|r df IH]; simpl; constructor; [|exact IH].
  destruct (String.eqb_spec (TrainModel.date r) TrainModel.train_date) as [E|];
    [|reflexivity].
  rewrite E. reflexivity.
Qed.

(** X23.  The labels depend only on which (athlete_name, injury_date) rows
    the injury table holds: two tables with the same rows, in any order and
    with any repetition, give the same labeled dataset. *)
Theorem labels_depend_on_rows_only
    (features_df : list RollingWindowFeatures.rolling_row)
    (injuries_a injuries_b : list CreateLabeledDataset.injury) :
  (forall inj, In inj injuries_a <-> In inj injuries_b) ->
  CreateLabeledDataset.create_labeled_dataset features_df injuries_a
  = CreateLabeledDataset.create_labeled_dataset features_df injuries_b.
Proof.
  intros Hsame. unfold CreateLabeledDataset.create_labeled_dataset.
  replace (CreateLabeledDataset.injury_lookup injuries_b)
    with (CreateLabeledDataset.injury_lookup injuries_a); [reflexivity|].
  apply set_eq. intros [name day]. rewrite !injury_lookup_spec.
  split; intros (inj & Hin & E); exists inj; (split; [now apply Hsame | exact E]).
Qed.

End SplitAndLabels.

(** ** The further properties on the sample data *)

Section FurtherExamples.
Local Open Scope Q_scope.


Lemma rolling_rows_follow_cutoffs_example :
  RollingWindowFeatures.create_rolling_features Examples.steady_file
    [1; Examples.steady_total]
  = Py.Ok (Some (RollingWindowFeatures.rows_of [1; Examples.steady_total]
                   Examples.steady_file))
  /\ NoDup [1; Examples.steady_total]
  /\ NoDup (map (fun r => RollingWindowFeatures.window_minutes
                            (RollingWindowFeatures.feats r))
              (RollingWindowFeatures.rows_of [1; Examples.steady_total]
                 Examples.steady_file)).
Proof.
  assert (E : RollingWindowFeatures.create_rolling_features Examples.steady_file
                [1; Examples.steady_total]
              = Py.Ok (Some (RollingWindowFeatures.rows_of [1; Examples.steady_total]
                               Examples.steady_file)))
    by (vm_compute; reflexivity).
  assert (Hnd : NoDup [1; Examples.steady_total]).
  { apply NoDup_cons. split; [|apply NoDup_singleton].
    intros H. apply list_elem_of_singleton in H. discriminate. }
  split; [exact E|]. split; [exact Hnd|].
  exact (proj2 (rolling_rows_follow_cutoffs _ _ _ E) Hnd).
Defined.

Lemma rolling_rows_grow_example :
  RollingWindowFeatures.create_rolling_features Examples.steady_file
    [102 # 60; Examples.steady_total]
  = Py.Ok (Some (RollingWindowFeatures.rows_of [102 # 60; Examples.steady_total]
                   Examples.steady_file))
  /\ length (RollingWindowFeatures.rows_of [102 # 60; Examples.steady_total]
               Examples.steady_file) = 2%nat
  /\ forall r1 r2,
       In r1 (RollingWindowFeatures.rows_of [102 # 60; Examples.steady_total]
                Examples.steady_file) ->
       In r2 (RollingWindowFeatures.rows_of [102 # 60; Examples.steady_total]
                Examples.steady_file) ->
       RollingWindowFeatures.window_minutes (RollingWindowFeatures.feats r1)
       <= RollingWindowFeatures.window_minutes (RollingWindowFeatures.feats r2) ->
       (RollingWindowFeatures.data_points (RollingWindowFeatures.feats r1)
        <= RollingWindowFeatures.data_points (RollingWindowFeatures.feats r2))%nat.
Proof.
  assert (E : RollingWindowFeatures.create_rolling_features Examples.steady_file
                [102 # 60; Examples.steady_total]
              = Py.Ok (Some (RollingWindowFeatures.rows_of
                               [102 # 60; Examples.steady_total]
                               Examples.steady_file)))
    by (vm_compute; reflexivity).
  split; [exact E|]. split; [vm_compute; reflexivity|].
  intros r1 r2. apply (rolling_rows_grow _ _ _ r1 r2 E).
Defined.


Lemma recent_is_whole_window_example :
  exists f,
    RollingWindowFeatures.calculate_window_features Examples.three_rows
      0%nat 3%nat 5 = Some f
    /\ (RollingWindowFeatures.data_points f <= 1200)%nat
    /\ RollingWindowFeatures.recent_avg_velocity f
       = RollingWindowFeatures.avg_velocity f
    /\ RollingWindowFeatures.recent_max_acceleration f
       = RollingWindowFeatures.max_acceleration f.
Proof.
  eexists. split; [vm_compute; reflexivity|].
  assert (Hn : (3 <= 1200)%nat) by lia.
  split; [exact Hn|].
  exact (recent_is_whole_window Examples.three_rows 0%nat 3%nat 5 _ eq_refl Hn).
Defined.

Lemma total_duration_nonneg_example :
  Examples.steady_samples <> []
  /\ exists t,
       RollingWindowFeatures.total_duration
         (RollingWindowFeatures.frame Examples.steady_samples) = Some t
       /\ 0 <= t.
Proof.
  assert (Hne : Examples.steady_samples <> []) by (vm_compute; discriminate).
  split; [exact Hne|].
  destruct (total_duration_nonneg Examples.steady_samples Hne)
    as (t & Et & H0 & _).
  exists t. split; [exact Et | exact H0].
Defined.


Lemma update_fills_unknown_row_example :
  Examples.injury_dates !! 0%nat
  = Some (AutoDetectInjuries.InjuryRow "2025-01-09" "Unknown A" None
            [("injury_type", "hamstring")])
  /\ AutoDetectInjuries.update_injury_dates_csv Examples.injury_dates
       Examples.detections !! 0%nat
     = Some (AutoDetectInjuries.InjuryRow "2025-01-09" "Cy Diaz"
               (Some "NO DATA") [("injury_type", "hamstring")]).
Proof.
  split; [reflexivity|].
  destruct (update_fills_unknown_row Examples.injury_dates Examples.detections
              0%nat _ eq_refl eq_refl) as (_ & _ & Hmany).
  destruct (Hmany (AutoDetectInjuries.Detected "Cy Diaz" "1044" "NO DATA" 0 0)
              (AutoDetectInjuries.Detected "Di Evans" "1045" "MINIMAL DATA" 300 8)
              [] eq_refl) as (HA & _).
  exact (HA eq_refl).
Defined.

Lemma main_names_single_suspect_example :
  AutoDetectInjuries.detect_injuries_on_date Examples.short_day "2025-01-09"
  = [AutoDetectInjuries.Detected "Di Evans" "1045" "MINIMAL DATA" 300 8]
  /\ exists saved,
       AutoDetectInjuries.main Examples.short_day Examples.injury_dates
       = Some saved
       /\ saved !! 0%nat
          = Some (AutoDetectInjuries.InjuryRow "2025-01-09" "Di Evans"
                    (Some "MINIMAL DATA") [("injury_type", "hamstring")]).
Proof.
  assert (Hd : AutoDetectInjuries.detect_injuries_on_date Examples.short_day
                 "2025-01-09"
               = [AutoDetectInjuries.Detected "Di Evans" "1045" "MINIMAL DATA" 300 8])
    by (vm_compute; reflexivity).
  split; [exact Hd|].
  exact (main_names_single_suspect Examples.short_day Examples.injury_dates
           0%nat _ _ eq_refl eq_refl Hd).
Defined.



Lemma labels_depend_on_rows_only_example :
  (forall inj, In inj Examples.labels
               <-> In inj (Examples.labels ++ rev Examples.labels)%list)
  /\ CreateLabeledDataset.create_labeled_dataset Examples.feature_rows
       Examples.labels
     = CreateLabeledDataset.create_labeled_dataset Examples.feature_rows
         (Examples.labels ++ rev Examples.labels)%list.
Proof.
  assert (Hsame : forall inj, In inj Examples.labels
                    <-> In inj (Examples.labels ++ rev Examples.labels)%list).
  { intros inj. rewrite in_app_iff, <- in_rev. tauto. }
  split; [exact Hsame|].
  exact (labels_depend_on_rows_only Examples.feature_rows Examples.labels _ Hsame).
Defined.

End FurtherExamples.

(** ** Outcomes of reading a session, and which reason is kept *)

Section Outcomes.
Local Open Scope Q_scope.


Lemma find_app_first {A} (p : A -> bool) (l1 l2 : list A) (x y : A) :
  In x l1 -> p x = true -> List.find p (l1 ++ l2) = Some y -> In y l1.
Proof.
  induction l1 as [|z l1 IH]; simpl; [intros []|].
  destruct (p z) eqn:E; [intros _ _ [= <-]; auto|].
  intros [-> | Hx] Hp; [congruence|]. intros H. right. now apply IH.
Qed.

(** X25.  When both the per-file rule and the early-termination rule flag an
    (athlete, activity) pair, the per-file reason is the one kept: an entry
    of the result that carries an [avg_duration] has a key that no per-file
    candidate has. *)
Theorem per_file_reason_wins (files : list DetectInjuries.file)
    (c c' : DetectInjuries.candidate) :
  In c (DetectInjuries.analyze_injuries files) ->
  DetectInjuries.avg_duration c <> None ->
  In c' (DetectInjuries.injured_candidates (DetectInjuries.first_pass files)) ->
  DetectInjuries.key c' <> DetectInjuries.key c.
Proof.
  intros Hc Havg Hc' Hkey.
  assert (Hfind : List.find
                    (fun x => bool_decide (DetectInjuries.key x = DetectInjuries.key c))
                    (DetectInjuries.all_candidates files) = Some c).
  { assert (Hin : In c (List.filter
                          (fun x => bool_decide (DetectInjuries.key x = DetectInjuries.key c))
                          (DetectInjuries.analyze_injuries files)))
      by (apply List.filter_In; split; [exact Hc | now apply bool_decide_eq_true_2]).
    unfold DetectInjuries.analyze_injuries, DetectInjuries.unique_injured in Hin.
    apply (Permutation_in _ (filter_perm _ _ _ (sort_perm _))) in Hin.
    rewrite dedup_first_seen in Hin.
    destruct (List.find _ _) as [y|]; simpl in Hin; [|destruct Hin].
    destruct Hin as [-> | []]. reflexivity. }
  unfold DetectInjuries.all_candidates in Hfind.
  apply (find_app_first _ _ _ c' c Hc') in Hfind;
    [|now apply bool_decide_eq_true_2].
  rewrite first_pass_candidates in Hfind.
  apply in_flat_map in Hfind as (f & _ & Hf).
  unfold DetectInjuries.flagged_by in Hf.
  destruct (DetectInjuries.read_session f); [|destruct Hf].
  apply flag_suspect in Hf as (_ & Hnone & _). contradiction.
Qed.


Lemma per_file_reason_wins_example :
  (exists c, In c (DetectInjuries.analyze_injuries Examples.more_files)
             /\ DetectInjuries.avg_duration c <> None)
  /\ forall c c',
       In c (DetectInjuries.analyze_injuries Examples.more_files) ->
       DetectInjuries.avg_duration c <> None ->
       In c' (DetectInjuries.injured_candidates
                (DetectInjuries.first_pass Examples.more_files)) ->
       DetectInjuries.key c' <> DetectInjuries.key c.
Proof.
  split.
  - eexists. split; [vm_compute; right; right; left; reflexivity|].
    discriminate.
  - intros c c'. apply (per_file_reason_wins Examples.more_files c c').
Defined.

End Outcomes.
